(** * LidarLight v3HP MicroPython driver: a shallow embedding

    The driver of [lidarLitev3hp.py] (class [V3HP]) is embedded as monadic
    Rocq functions over an explicit world: the driver object, the I2C bus it
    talks to, the console and the time slept.  Python exceptions are an
    outcome of their own that keeps the world reached when they were raised,
    because attribute assignments made before a failing bus transaction are
    not rolled back. *)

From Stdlib Require Import ZArith List String Bool Lia.
From Stdlib Require Strings.Byte.
Import ListNotations.

Local Open Scope string_scope.
Local Open Scope Z_scope.
Local Open Scope list_scope.

(** ** Bytes

    A Python [bytes] or [bytearray] value is a list of bytes; subscripting it
    gives an [int] between 0 and 255. *)

Definition byte : Set := Init.Byte.byte.

Definition byte_val (b : byte) : Z := Z.of_N (Byte.to_N b).

(** The byte holding the low eight bits of an integer. *)
Definition byte_low (z : Z) : byte :=
  match Byte.of_N (Z.to_N (z mod 256)) with
  | Some b => b
  | None => Init.Byte.x00
  end.

(** The byte of an integer in [range(256)], nothing otherwise. *)
Definition byte_of (z : Z) : option byte :=
  if (0 <=? z) && (z <? 256) then Some (byte_low z) else None.

(** ** The I2C bus

    [machine.I2C] is not part of the repository.  The bus is modelled by a
    single memory-mapped device: a register file written and read with
    auto-increment, a script of values that the coming reads of the status
    register 0x01 return (the register file answers once the script is
    used up), a budget of transactions that succeed before one fails with
    [OSError], and the list of the transactions issued, oldest first.  The
    device answers at every bus address; the address used is recorded. *)

Inductive txn : Type :=
| WriteTo (addr memaddr : Z) (buf : list byte) (ok : bool)
| ReadFrom (addr memaddr : Z) (nbytes : nat) (res : option (list byte)).

Record I2C : Type := mkI2C {
  regs : Z -> byte;
  status : list byte;
  budget : option nat;
  log : list txn
}.

Fixpoint store (r : Z -> byte) (memaddr : Z) (buf : list byte) : Z -> byte :=
  match buf with
  | [] => r
  | b :: buf' =>
      store (fun a => if a =? memaddr then b else r a) (memaddr + 1) buf'
  end.

Fixpoint fetch (r : Z -> byte) (memaddr : Z) (nbytes : nat) : list byte :=
  match nbytes with
  | O => []
  | S n => r memaddr :: fetch r (memaddr + 1) n
  end.

(** What a read returns and the status script it leaves. *)
Definition answer (r : Z -> byte) (script : list byte) (memaddr : Z)
    (nbytes : nat) : list byte * list byte :=
  if memaddr =? 0x01 then
    match script, nbytes with
    | b :: script', S n => (b :: fetch r (memaddr + 1) n, script')
    | _, _ => (fetch r memaddr nbytes, script)
    end
  else (fetch r memaddr nbytes, script).

(** [spend b] is the budget left after one more transaction, or nothing when
    that transaction fails. *)
Definition spend (b : option nat) : option (option nat) :=
  match b with
  | None => Some None
  | Some O => None
  | Some (S n) => Some (Some n)
  end.

Definition writeto_mem (dev : I2C) (addr memaddr : Z) (buf : list byte)
    : I2C * bool :=
  match spend (budget dev) with
  | Some rest =>
      (mkI2C (store (regs dev) memaddr buf) (status dev) rest
             (log dev ++ [WriteTo addr memaddr buf true]), true)
  | None =>
      (mkI2C (regs dev) (status dev) (budget dev)
             (log dev ++ [WriteTo addr memaddr buf false]), false)
  end.

Definition readfrom_mem (dev : I2C) (addr memaddr : Z) (nbytes : nat)
    : I2C * option (list byte) :=
  match spend (budget dev) with
  | Some rest =>
      let '(val, script) := answer (regs dev) (status dev) memaddr nbytes in
      (mkI2C (regs dev) script rest
             (log dev ++ [ReadFrom addr memaddr nbytes (Some val)]), Some val)
  | None =>
      (mkI2C (regs dev) (status dev) (budget dev)
             (log dev ++ [ReadFrom addr memaddr nbytes None]), None)
  end.

(** ** The driver object and the world *)

Record V3HP : Type := mkV3HP {
  i2c : I2C;
  address : Z;
  sig_count_max : Z;
  acq_config_reg : Z;
  ref_count_max : Z;
  threshold_bypass : Z;
  busy_counter : Z
}.

Record World : Type := mkWorld {
  self : V3HP;
  stdout : list string;
  slept_us : Z
}.

Inductive exn : Type := KeyError | OSError | IndexError | ValueError.

Inductive outcome (A : Type) : Type :=
| Ok (a : A) (w : World)
| Raise (e : exn) (w : World)
| OutOfFuel.

Arguments Ok {A} a w.
Arguments Raise {A} e w.
Arguments OutOfFuel {A}.

Definition M (A : Type) : Type := World -> outcome A.

Definition ret {A} (a : A) : M A := fun w => Ok a w.

Definition bind {A B} (c : M A) (k : A -> M B) : M B :=
  fun w =>
    match c w with
    | Ok a w' => k a w'
    | Raise e w' => Raise e w'
    | OutOfFuel => OutOfFuel
    end.

Definition raise {A} (e : exn) : M A := fun w => Raise e w.

Declare Scope py_scope.
Delimit Scope py_scope with py.
Notation "x <- c ;; k" := (bind c (fun x => k))
  (at level 61, c at next level, right associativity) : py_scope.
Notation "c ;; k" := (bind c (fun _ => k))
  (at level 61, right associativity) : py_scope.
Local Open Scope py_scope.

Definition get_self : M V3HP := fun w => Ok (self w) w.

Definition update_self (f : V3HP -> V3HP) : M unit :=
  fun w => Ok tt (mkWorld (f (self w)) (stdout w) (slept_us w)).

Definition with_i2c (bus : I2C) (s : V3HP) : V3HP :=
  mkV3HP bus (address s) (sig_count_max s) (acq_config_reg s)
         (ref_count_max s) (threshold_bypass s) (busy_counter s).

Definition set_address (v : Z) : M unit :=
  update_self (fun s =>
    mkV3HP (i2c s) v (sig_count_max s) (acq_config_reg s)
           (ref_count_max s) (threshold_bypass s) (busy_counter s)).

Definition set_sig_count_max (v : Z) : M unit :=
  update_self (fun s =>
    mkV3HP (i2c s) (address s) v (acq_config_reg s)
           (ref_count_max s) (threshold_bypass s) (busy_counter s)).

Definition set_acq_config_reg (v : Z) : M unit :=
  update_self (fun s =>
    mkV3HP (i2c s) (address s) (sig_count_max s) v
           (ref_count_max s) (threshold_bypass s) (busy_counter s)).

Definition set_ref_count_max (v : Z) : M unit :=
  update_self (fun s =>
    mkV3HP (i2c s) (address s) (sig_count_max s) (acq_config_reg s)
           v (threshold_bypass s) (busy_counter s)).

Definition set_threshold_bypass (v : Z) : M unit :=
  update_self (fun s =>
    mkV3HP (i2c s) (address s) (sig_count_max s) (acq_config_reg s)
           (ref_count_max s) v (busy_counter s)).

Definition bus (w : World) : I2C := i2c (self w).

Definition set_bus (b : I2C) (w : World) : World :=
  mkWorld (with_i2c b (self w)) (stdout w) (slept_us w).

(** [time.sleep_us]: the time slept is accumulated. *)
Definition sleep_us (us : Z) : M unit :=
  fun w => Ok tt (mkWorld (self w) (stdout w) (slept_us w + us)).

Definition print (line : string) : M unit :=
  fun w => Ok tt (mkWorld (self w) (stdout w ++ [line]) (slept_us w)).

(** [self.i2c.writeto_mem] and [self.i2c.readfrom_mem]: a failed transaction
    raises [OSError]. *)
Definition i2c_writeto_mem (addr memaddr : Z) (buf : list byte) : M unit :=
  fun w =>
    let '(b, ok) := writeto_mem (bus w) addr memaddr buf in
    if ok then Ok tt (set_bus b w) else Raise OSError (set_bus b w).

Definition i2c_readfrom_mem (addr memaddr : Z) (nbytes : nat)
    : M (list byte) :=
  fun w =>
    let '(b, res) := readfrom_mem (bus w) addr memaddr nbytes in
    match res with
    | Some val => Ok val (set_bus b w)
    | None => Raise OSError (set_bus b w)
    end.

(** ** Python values used by the driver *)

(** [d[k]] on a dict: [KeyError] when the key is absent. *)
Fixpoint dict_get {K V : Type} (eqb : K -> K -> bool) (d : list (K * V))
    (k : K) : option V :=
  match d with
  | [] => None
  | (k', v) :: d' => if eqb k k' then Some v else dict_get eqb d' k
  end.

Definition subscript {K V : Type} (eqb : K -> K -> bool) (d : list (K * V))
    (k : K) : M V :=
  match dict_get eqb d k with
  | Some v => ret v
  | None => raise KeyError
  end.

(** [b[i]] on bytes: [IndexError] when out of range. *)
Definition item (b : list byte) (i : nat) : M Z :=
  match nth_error b i with
  | Some x => ret (byte_val x)
  | None => raise IndexError
  end.

(** [b[0] = v] on a bytearray: MicroPython stores the low eight bits of [v];
    [IndexError] on an empty bytearray. *)
Definition setitem0 (b : list byte) (v : Z) : M (list byte) :=
  match b with
  | [] => raise IndexError
  | _ :: rest => ret (byte_low v :: rest)
  end.

(** [bytes([v])]: [ValueError] when [v] is not in [range(256)]. *)
Definition bytes1 (v : Z) : M (list byte) :=
  match byte_of v with
  | Some b => ret [b]
  | None => raise ValueError
  end.

(** ** The driver *)

(** The table built by [__init__]; no method changes it. *)
Definition configurations : list (Z * list (string * Z)) :=
  [ (0, [ ("sig_count_max", 0x80); ("acq_config_reg", 0x08);
          ("ref_count_max", 0x05); ("threshold_bypass", 0x00) ]);
    (1, [ ("sig_count_max", 0x1d); ("acq_config_reg", 0x08);
          ("ref_count_max", 0x03); ("threshold_bypass", 0x03) ]);
    (2, [ ("sig_count_max", 0x80); ("acq_config_reg", 0x00);
          ("ref_count_max", 0x03); ("threshold_bypass", 0x00) ]);
    (3, [ ("sig_count_max", 0xff); ("acq_config_reg", 0x08);
          ("ref_count_max", 0x05); ("threshold_bypass", 0x00) ]);
    (4, [ ("sig_count_max", 0x80); ("acq_config_reg", 0x08);
          ("ref_count_max", 0x05); ("threshold_bypass", 0x00) ]);
    (5, [ ("sig_count_max", 0x80); ("acq_config_reg", 0x08);
          ("ref_count_max", 0x05); ("threshold_bypass", 0xb0) ]);
    (6, [ ("sig_count_max", 0x04); ("acq_config_reg", 0x01);
          ("ref_count_max", 0x03); ("threshold_bypass", 0x00) ]) ].

(** [self.configurations[mode][key]] *)
Definition configuration (mode : Z) (key : string) : M Z :=
  d <- subscript Z.eqb configurations mode ;;
  subscript String.eqb d key.

Definition write (register : Z) (value : list byte) : M unit :=
  s <- get_self ;;
  i2c_writeto_mem (address s) register value ;;
  sleep_us 10.

Definition read (register : Z) (nbytes : nat) : M (list byte) :=
  s <- get_self ;;
  val <- i2c_readfrom_mem (address s) register nbytes ;;
  ret val.

Definition configure (mode : Z) : M unit :=
  v <- configuration mode "sig_count_max" ;; set_sig_count_max v ;;
  v <- configuration mode "acq_config_reg" ;; set_acq_config_reg v ;;
  v <- configuration mode "ref_count_max" ;; set_ref_count_max v ;;
  v <- configuration mode "threshold_bypass" ;; set_threshold_bypass v ;;
  s <- get_self ;; b <- bytes1 (sig_count_max s) ;; write 0x02 b ;;
  s <- get_self ;; b <- bytes1 (acq_config_reg s) ;; write 0x04 b ;;
  s <- get_self ;; b <- bytes1 (ref_count_max s) ;; write 0x12 b ;;
  s <- get_self ;; b <- bytes1 (threshold_bypass s) ;; write 0x1c b.

Definition change_i2c_address (new_address : Z) (disable_default : bool)
    : M unit :=
  databytes <- read 0x16 2 ;;
  write 0x18 databytes ;;
  databytes <- setitem0 databytes (Z.shiftl new_address 1) ;;
  write 0x1a databytes ;;
  set_address new_address ;;
  databytes <- read 0x1e 1 ;;
  d0 <- item databytes 0 ;;
  databytes <- setitem0 databytes (Z.lor d0 (Z.shiftl 1 4)) ;;
  write 0x1e databytes ;;
  if disable_default then
    databytes <- read 0x1e 1 ;;
    d0 <- item databytes 0 ;;
    databytes <- setitem0 databytes (Z.lor d0 (Z.shiftl 1 3)) ;;
    write 0x1e databytes
  else ret tt.

Definition read_distance : M Z :=
  databytes <- read 0x0f 2 ;;
  d0 <- item databytes 0 ;;
  d1 <- item databytes 1 ;;
  ret (Z.lor (Z.shiftl d0 8) d1).

Definition take_range : M unit :=
  b <- bytes1 0x01 ;; write 0x00 b.

Definition get_busy_flag : M Z :=
  busy_flag <- read 0x01 1 ;;
  f <- item busy_flag 0 ;;
  ret (Z.land f 0x01).

(** The [while] loop of [wait_for_busy], with the local [busy_counter] as
    an argument; [fuel] bounds the number of times the condition is
    evaluated. *)
Fixpoint wait_loop (fuel : nat) (busy_counter : Z) : M unit :=
  match fuel with
  | O => fun _ => OutOfFuel
  | S fuel' =>
      flag <- get_busy_flag ;;
      if flag =? 1 then
        let busy_counter := busy_counter + 1 in
        if busy_counter >? 9999 then print "giving up on busy flag"
        else wait_loop fuel' busy_counter
      else ret tt
  end.

Definition wait_for_busy : M unit := wait_loop (Z.to_nat 10000) 0.

Definition range : M Z :=
  wait_for_busy ;;
  take_range ;;
  wait_for_busy ;;
  read_distance.

Definition range_fast : M Z :=
  wait_for_busy ;;
  take_range ;;
  read_distance.

Definition reset_reference_filter : M unit :=
  databytes <- read 0x04 1 ;;
  acq_config_reg <- item databytes 0 ;;
  databytes <- setitem0 databytes (Z.lor acq_config_reg 0x10) ;;
  write 0x12 databytes ;;
  databytes <- read 0x12 1 ;;
  refCountMax <- item databytes 0 ;;
  databytes <- setitem0 databytes 0xff ;;
  write 0x12 databytes ;;
  range ;;
  databytes <- setitem0 databytes refCountMax ;;
  write 0x12 databytes ;;
  databytes <- setitem0 databytes acq_config_reg ;;
  write 0x04 databytes.

(** [V3HP(mode, i2c, address)]: the constructor, run from an empty console. *)
Definition init (mode : Z) (dev : I2C) (addr : Z) : outcome unit :=
  (sleep_us 80 ;; configure mode)
    (mkWorld (mkV3HP dev addr 0x80 0x08 0x05 0x00 0) [] 0).

(** ** Vocabulary of the statements *)

(** The world an outcome ends in. *)
Definition final {A : Type} (o : outcome A) : option World :=
  match o with
  | Ok _ w => Some w
  | Raise _ w => Some w
  | OutOfFuel => None
  end.

(** [issued w w' p]: the bus of [w'] has logged the transactions [p] after
    those of [w]. *)
Definition issued (w w' : World) (p : list txn) : Prop :=
  log (bus w') = log (bus w) ++ p.

(** [enough n dev]: the coming [n] transactions on [dev] succeed. *)
Definition enough (n : nat) (dev : I2C) : Prop :=
  match budget dev with
  | None => True
  | Some k => (n <= k)%nat
  end.

Definition addr_of (t : txn) : Z :=
  match t with
  | WriteTo a _ _ _ => a
  | ReadFrom a _ _ _ => a
  end.

Definition memaddr_of (t : txn) : Z :=
  match t with
  | WriteTo _ m _ _ => m
  | ReadFrom _ m _ _ => m
  end.

Definition failed (t : txn) : bool :=
  match t with
  | WriteTo _ _ _ ok => negb ok
  | ReadFrom _ _ _ None => true
  | ReadFrom _ _ _ (Some _) => false
  end.

(** The number of transactions of [p] that succeeded. *)
Definition completed (p : list txn) : nat :=
  List.length (filter (fun t => negb (failed t)) p).

(** A one-byte read of the status register 0x01 at bus address [addr]. *)
Definition status_read (addr : Z) (t : txn) : bool :=
  match t with
  | ReadFrom a m n _ => (a =? addr) && (m =? 0x01) && (n =? 1)%nat
  | WriteTo _ _ _ _ => false
  end.

(** The busy flag (bit 0) that a completed status read reports. *)
Definition busy_flag_of (addr : Z) (t : txn) : option Z :=
  match t with
  | ReadFrom a m n (Some [b]) =>
      if (a =? addr) && (m =? 0x01) && (n =? 1)%nat
      then Some (Z.land (byte_val b) 0x01) else None
  | _ => None
  end.

(** Poll until idle: status reads that report busy, closed by one that
    reports idle or by the 10000th read. *)
Definition poll_until_idle (addr : Z) (p : list txn) : Prop :=
  exists pre t,
    p = pre ++ [t] /\
    Forall (fun x => busy_flag_of addr x = Some 1) pre /\
    (busy_flag_of addr t = Some 0 \/
     (busy_flag_of addr t = Some 1 /\ Z.of_nat (List.length p) = 10000)).

(** The value the device returns to the next read of the status register. *)
Definition next_status (dev : I2C) : byte :=
  match status dev with
  | b :: _ => b
  | [] => regs dev 0x01
  end.

(** A status read of [p] got its answer from the device [dev]: from its
    script or its register 0x01, or failed on a bus with a finite budget. *)
Definition answered (dev : I2C) (t : txn) : Prop :=
  match t with
  | ReadFrom _ _ _ (Some [b]) => In b (regs dev 0x01 :: status dev)
  | ReadFrom _ _ _ (Some _) => False
  | ReadFrom _ _ _ None => budget dev <> None
  | WriteTo _ _ _ _ => False
  end.

(** The attributes of the driver other than its bus are those of [w]. *)
Definition same_driver (w w' : World) : Prop :=
  address (self w') = address (self w) /\
  sig_count_max (self w') = sig_count_max (self w) /\
  acq_config_reg (self w') = acq_config_reg (self w) /\
  ref_count_max (self w') = ref_count_max (self w) /\
  threshold_bypass (self w') = threshold_bypass (self w) /\
  busy_counter (self w') = busy_counter (self w).

Definition after_read (w : World) (register : Z) (nbytes : nat) : World :=
  set_bus (fst (readfrom_mem (bus w) (address (self w)) register nbytes)) w.

Definition giving_up : string := "giving up on busy flag".

(** How a run of the polling loop from counter [c] ends, after the status
    reads [pre ++ [t]]. *)
Definition poll_outcome (w : World) (c : Z) (pre : list txn) (t : txn)
    (w' : World) (o : outcome unit) : Prop :=
  (busy_flag_of (address (self w)) t = Some 0 /\ o = Ok tt w' /\
   stdout w' = stdout w) \/
  (busy_flag_of (address (self w)) t = Some 1 /\
   c + Z.of_nat (List.length pre) + 1 = 10000 /\ o = Ok tt w' /\
   stdout w' = stdout w ++ [giving_up]) \/
  (failed t = true /\ o = Raise OSError w' /\ stdout w' = stdout w).

(** The profile table of the specification:
    id -> sig_count_max, acq_config_reg, ref_count_max, threshold_bypass. *)
Definition documented_profile (id : Z) : option (Z * Z * Z * Z) :=
  match id with
  | 0 => Some (0x80, 0x08, 0x05, 0x00)
  | 1 => Some (0x1d, 0x08, 0x03, 0x03)
  | 2 => Some (0x80, 0x00, 0x03, 0x00)
  | 3 => Some (0xff, 0x08, 0x05, 0x00)
  | 4 => Some (0x80, 0x08, 0x05, 0x00)
  | 5 => Some (0x80, 0x08, 0x05, 0xb0)
  | 6 => Some (0x04, 0x01, 0x03, 0x00)
  | _ => None
  end.

(** A device with every register at zero, a given status script and
    budget, and nothing logged; and a driver on it at the default address
    with the attributes that [__init__] assigns. *)
Definition blank (script : list byte) (b : option nat) : I2C :=
  mkI2C (fun _ => Init.Byte.x00) script b [].

Definition fresh (dev : I2C) : World :=
  mkWorld (mkV3HP dev 0x62 0x80 0x08 0x05 0x00 0) [] 0.

(** ** The claims that the code does not meet, as they are stated *)

(** A write to [register] that succeeded is among [p]. *)
Definition completed_write (register : Z) (p : list txn) : bool :=
  existsb (fun t => match t with
                    | WriteTo _ m _ true => m =? register
                    | _ => false
                    end) p.

(** When [configure] fails, a mirror attribute whose register write did not
    complete still has the value it had before the call. *)
Definition mirror_follows_writes (mode : Z) (w : World) : Prop :=
  forall e w' p,
    configure mode w = Raise e w' -> issued w w' p ->
    (completed_write 0x02 p = false ->
     sig_count_max (self w') = sig_count_max (self w)) /\
    (completed_write 0x04 p = false ->
     acq_config_reg (self w') = acq_config_reg (self w)) /\
    (completed_write 0x12 p = false ->
     ref_count_max (self w') = ref_count_max (self w)) /\
    (completed_write 0x1c p = false ->
     threshold_bypass (self w') = threshold_bypass (self w)).

(** [c] returns after exactly [n] bus transactions. *)
Definition issues_exactly {A : Type} (c : M A) (w : World) (n : nat) : Prop :=
  exists a w' p, c w = Ok a w' /\ issued w w' p /\ List.length p = n.

(** Four transactions without, six with [disable_default]. *)
Definition change_address_counts (w : World) : Prop :=
  issues_exactly (change_i2c_address 0x70 false) w 4 /\
  issues_exactly (change_i2c_address 0x70 true) w 6.

(** The transactions on register 0x1e that enable the new address go to the
    old address, and the [address] attribute is the new one only once the
    write that enables it has completed. *)
Definition switches_after_enable (new : Z) (w : World) : Prop :=
  forall w' p,
    final (change_i2c_address new false w) = Some w' -> issued w w' p ->
    Forall (fun t => memaddr_of t = 0x1e -> addr_of t = address (self w)) p /\
    (address (self w') = new -> completed_write 0x1e p = true).

(** Registers 0x12 and 0x04 hold after the call what they held before. *)
Definition restores_registers (w : World) : Prop :=
  forall w',
    reset_reference_filter w = Ok tt w' ->
    regs (bus w') 0x12 = regs (bus w) 0x12 /\
    regs (bus w') 0x04 = regs (bus w) 0x04.

(** ** Runs on a bus that never fails *)

(** [step w w' p r]: a run from [w] to [w'] has issued [p], left the
    registers [r] and a bus that still never fails, and changed no
    attribute of the driver. *)
Definition step (w w' : World) (p : list txn) (r : Z -> byte) : Prop :=
  issued w w' p /\ same_driver w w' /\ regs (bus w') = r /\
  budget (bus w') = None.

(** The 16-bit word that [read_distance] makes of the registers 0x0f and
    0x10. *)
Definition distance (r : Z -> byte) : Z :=
  Z.lor (Z.shiftl (byte_val (r 0x0f)) 8) (byte_val (r 0x10)).

(** A status byte with the busy flag clear. *)
Definition idle (b : byte) : Prop := Z.land (byte_val b) 0x01 = 0.

(** A device that always reads idle, whose acquisition configuration is
    0x08, reference count 0x05 and distance 0x012c, on a bus that never
    fails. *)
Definition ranging_device : I2C :=
  mkI2C (fun m => if m =? 0x04 then Init.Byte.x08
                  else if m =? 0x12 then Init.Byte.x05
                  else if m =? 0x0f then Init.Byte.x01
                  else if m =? 0x10 then Init.Byte.x2c
                  else Init.Byte.x00) [] None [].

(** ** Properties of runs on every bus *)

(** The number of writes of [p] that succeeded. *)
Definition completed_writes (p : list txn) : nat :=
  List.length (filter (fun t => match t with
                                | WriteTo _ _ _ true => true
                                | _ => false
                                end) p).

(** [frame touched w w' p]: a run from [w] to [w'] has issued [p], all of it at
    the address of the driver; it has changed no attribute of the driver,
    slept ten microseconds for each write that succeeded and no longer,
    and changed no register outside [touched]; a bus that never fails still
    never fails. *)
Definition frame (touched : Z -> Prop) (w w' : World) (p : list txn) : Prop :=
  issued w w' p /\
  Forall (fun t => addr_of t = address (self w)) p /\
  same_driver w w' /\
  slept_us w' = slept_us w + 10 * Z.of_nat (completed_writes p) /\
  (forall m, ~ touched m -> regs (bus w') m = regs (bus w) m) /\
  (budget (bus w) = None -> budget (bus w') = None).

(** A run that returns: every transaction succeeded. *)
Definition run_ok (touched : Z -> Prop) (w w' : World) : Prop :=
  exists p, frame touched w w' p /\ Forall (fun t => failed t = false) p.

(** A run that raises: the error is [OSError], the bus has a finite
    budget, and the transaction that failed is the last one issued. *)
Definition run_err (touched : Z -> Prop) (w : World) (e : exn) (w' : World)
    : Prop :=
  e = OSError /\ budget (bus w) <> None /\
  exists p t,
    frame touched w w' (p ++ [t]) /\
    Forall (fun x => failed x = false) p /\ failed t = true.

(** [runs touched P c]: from every world, [c] ends, in one of these two ways,
    and the value it returns satisfies [P]. *)
Definition runs {A : Type} (touched : Z -> Prop) (P : A -> Prop) (c : M A)
    : Prop :=
  forall w,
    match c w with
    | Ok a w' => P a /\ run_ok touched w w'
    | Raise e w' => run_err touched w e w'
    | OutOfFuel => False
    end.

(** No retry and no recovery: [c] ends after its first failed transaction
    with [OSError], and returns when none fails. *)
Definition fail_stop {A : Type} (c : M A) : Prop :=
  forall w, exists p w',
    issued w w' p /\
    ((exists a, c w = Ok a w' /\ Forall (fun t => failed t = false) p) \/
     (c w = Raise OSError w' /\ budget (bus w) <> None /\
      exists p' t, p = p' ++ [t] /\
                   Forall (fun x => failed x = false) p' /\
                   failed t = true)).

(** The settle delay: the time slept during [c] is ten microseconds for
    each write that succeeded. *)
Definition settles {A : Type} (c : M A) : Prop :=
  forall w, exists p w',
    final (c w) = Some w' /\ issued w w' p /\
    slept_us w' = slept_us w + 10 * Z.of_nat (completed_writes p).

(** [c] leaves the attributes of the driver and every register outside
    [touched] as they were, and talks to the address of the driver only. *)
Definition confined {A : Type} (touched : Z -> Prop) (c : M A) : Prop :=
  forall w, exists p w',
    final (c w) = Some w' /\ issued w w' p /\
    Forall (fun t => addr_of t = address (self w)) p /\
    same_driver w w' /\
    (forall m, ~ touched m -> regs (bus w') m = regs (bus w) m).

(** A status byte with the busy flag set. *)
Definition busy (b : byte) : Prop := Z.land (byte_val b) 0x01 = 1.

(** The completed status reads that return [answers] in turn. *)
Definition status_reads (addr : Z) (answers : list byte) : list txn :=
  map (fun b => ReadFrom addr 0x01 1 (Some [b])) answers.

(** [only_registers allowed c]: from every world [c] ends, and every
    transaction it has issued, failed ones included, is on a register in
    [allowed]. *)
Definition only_registers {A : Type} (allowed : Z -> Prop) (c : M A)
    : Prop :=
  forall w, exists p w',
    final (c w) = Some w' /\ issued w w' p /\
    Forall (fun t => allowed (memaddr_of t)) p.

(** * Proofs *)

(** ** Bytes *)

Lemma byte_val_range (b : byte) : 0 <= byte_val b < 256.
Proof.
  unfold byte_val. pose proof (Byte.to_N_bounded b). lia.
Qed.

Lemma byte_low_val (b : byte) : byte_low (byte_val b) = b.
Proof.
  unfold byte_low. rewrite Z.mod_small by apply byte_val_range.
  unfold byte_val. rewrite N2Z.id, Byte.of_to_N. reflexivity.
Qed.

Lemma byte_val_low (z : Z) : 0 <= z < 256 -> byte_val (byte_low z) = z.
Proof.
  intros H. unfold byte_low. rewrite Z.mod_small by exact H.
  destruct (Byte.of_N (Z.to_N z)) as [b|] eqn:E.
  - apply Byte.to_of_N in E. unfold byte_val. rewrite E. lia.
  - apply Byte.of_N_None_iff in E. lia.
Qed.

Lemma land1_cases (z : Z) : Z.land z 1 = 0 \/ Z.land z 1 = 1.
Proof.
  change 1 with (Z.ones 1). rewrite Z.land_ones by lia.
  pose proof (Z.mod_pos_bound z 2). cbn. lia.
Qed.

(** ** The register primitives *)

Lemma read_run (register : Z) (nbytes : nat) (w : World) :
  read register nbytes w =
  match snd (readfrom_mem (bus w) (address (self w)) register nbytes) with
  | Some val => Ok val (after_read w register nbytes)
  | None => Raise OSError (after_read w register nbytes)
  end.
Proof.
  unfold read, bind, get_self, i2c_readfrom_mem, after_read, ret.
  destruct (readfrom_mem (bus w) (address (self w)) register nbytes)
    as [b [val|]]; reflexivity.
Qed.

Lemma get_busy_flag_run (w : World) :
  get_busy_flag w =
  match spend (budget (bus w)) with
  | Some _ =>
      Ok (Z.land (byte_val (next_status (bus w))) 0x01) (after_read w 0x01 1)
  | None => Raise OSError (after_read w 0x01 1)
  end.
Proof.
  unfold get_busy_flag, bind. rewrite read_run.
  unfold readfrom_mem, next_status, answer.
  destruct (spend (budget (bus w))); [|reflexivity].
  destruct (status (bus w)); reflexivity.
Qed.

Lemma after_status_read (w : World) :
  let w' := after_read w 0x01 1 in
  same_driver w w' /\ stdout w' = stdout w /\ slept_us w' = slept_us w /\
  regs (bus w') = regs (bus w) /\
  log (bus w') = log (bus w) ++
    [ReadFrom (address (self w)) 0x01 1
       (match spend (budget (bus w)) with
        | Some _ => Some [next_status (bus w)]
        | None => None
        end)] /\
  status (bus w') =
    match spend (budget (bus w)) with
    | Some _ => tl (status (bus w))
    | None => status (bus w)
    end /\
  (budget (bus w) = None -> budget (bus w') = None) /\
  (spend (budget (bus w)) = None -> budget (bus w) <> None).
Proof.
  unfold after_read, readfrom_mem, next_status, answer, same_driver.
  destruct (budget (bus w)) as [[|n]|]; cbn;
    destruct (status (bus w)); cbn; repeat split; congruence.
Qed.

Lemma status_read_flag (a : Z) (res : option (list byte)) :
  status_read a (ReadFrom a 1 1 res) = true.
Proof. cbn. rewrite Z.eqb_refl. reflexivity. Qed.

Lemma busy_flag_of_read (a : Z) (b : byte) :
  busy_flag_of a (ReadFrom a 1 1 (Some [b])) = Some (Z.land (byte_val b) 1).
Proof. cbn. rewrite Z.eqb_refl. reflexivity. Qed.

Lemma answered_mono (dev dev' : I2C) (t : txn) :
  regs dev' = regs dev -> incl (status dev') (status dev) ->
  (budget dev = None -> budget dev' = None) ->
  answered dev' t -> answered dev t.
Proof.
  intros Hr Hs Hb. destruct t as [| a m n [[|b [|]]|]]; cbn; auto.
  rewrite Hr. intros [H|H]; [left; exact H | right; apply Hs, H].
Qed.

(** ** The polling loop *)

(** Every run of the loop that starts below the cap with the fuel the cap
    leaves room for: the status reads it issues, the world it leaves and
    the three ways it ends. *)
Lemma wait_loop_run : forall fuel c w,
  0 <= c <= 9999 -> 10000 - c <= Z.of_nat fuel ->
  exists pre t w',
    log (bus w') = log (bus w) ++ pre ++ [t] /\
    Forall (fun x => busy_flag_of (address (self w)) x = Some 1) pre /\
    status_read (address (self w)) t = true /\
    c + Z.of_nat (List.length pre) + 1 <= 10000 /\
    same_driver w w' /\ slept_us w' = slept_us w /\
    regs (bus w') = regs (bus w) /\
    incl (status (bus w')) (status (bus w)) /\
    (budget (bus w) = None -> budget (bus w') = None) /\
    Forall (answered (bus w)) (pre ++ [t]) /\
    poll_outcome w c pre t w' (wait_loop fuel c w).
Proof.
  induction fuel as [|fuel IH]; intros c w Hc Hfuel; [lia|].
  cbn [wait_loop]. unfold bind at 1, poll_outcome. rewrite get_busy_flag_run.
  destruct (after_status_read w) as (Hd & Ho & Hs & Hr & Hl & Hst & Hb & Hnb).
  remember (after_read w 1 1) as w1 eqn:Ew1. clear Ew1.
  remember (address (self w)) as a eqn:Ea.
  destruct (spend (budget (bus w))) as [rest|] eqn:Esp.
  - (* the read completes *)
    remember (next_status (bus w)) as b eqn:Eb.
    assert (Hans : answered (bus w) (ReadFrom a 1 1 (Some [b]))).
    { subst b. cbn. unfold next_status. destruct (status (bus w)); cbn; auto. }
    assert (Hincl : incl (status (bus w1)) (status (bus w))).
    { rewrite Hst. destruct (status (bus w)); cbn;
        auto using incl_refl, incl_tl. }
    destruct (land1_cases (byte_val b)) as [E|E]; rewrite E;
      [change (0 =? 1) with false | change (1 =? 1) with true]; cbv iota.
    + (* idle *)
      exists [], (ReadFrom a 1 1 (Some [b])), w1. cbn [app List.length].
      split; [rewrite Hl; reflexivity|]. split; [constructor|].
      split; [apply status_read_flag|]. split; [lia|].
      do 5 (split; [assumption|]).
      split; [constructor; [assumption | constructor]|].
      left. rewrite busy_flag_of_read, E. auto.
    + destruct (Z.gtb_spec (c + 1) 9999) as [Ecap|Ecap].
      * (* the cap is reached *)
        exists [], (ReadFrom a 1 1 (Some [b])),
          (mkWorld (self w1) (stdout w1 ++ [giving_up]) (slept_us w1)).
        clear IH. unfold bus, same_driver in *.
        cbn [app List.length self stdout slept_us].
        split; [rewrite Hl; reflexivity|]. split; [constructor|].
        split; [apply status_read_flag|]. split; [lia|].
        do 5 (split; [assumption|]).
        split; [constructor; [assumption | constructor]|].
        right; left. rewrite busy_flag_of_read, E. unfold print.
        rewrite Ho. repeat split; auto. lia.
      * (* busy, below the cap: the loop goes round *)
        destruct (IH (c + 1) w1)
          as (pre & t & w' & Il & Ipre & It & Ic & Id & Is & Ir & Ist & Ib
              & Ia & Io); [lia | lia |].
        assert (Ha : address (self w1) = a) by (subst a; apply Hd).
        rewrite Ha in *.
        exists (ReadFrom a 1 1 (Some [b]) :: pre), t, w'.
        split. { rewrite Il, Hl. cbn [app]. rewrite <- app_assoc.
                 reflexivity. }
        split. { constructor; [|exact Ipre].
                 rewrite busy_flag_of_read, E. reflexivity. }
        split. { exact It. }
        split. { cbn [List.length]. lia. }
        split. { unfold same_driver in *. intuition congruence. }
        split. { congruence. }
        split. { congruence. }
        split. { eapply incl_tran; eauto. }
        split. { auto. }
        split. { cbn [app]. constructor; [exact Hans|].
                 eapply Forall_impl; [|exact Ia].
                 intros x. apply answered_mono; auto. }
        unfold poll_outcome in Io. cbn [List.length]. rewrite Ha in Io.
        destruct Io as [(A & B & C)|[(A & B & C & D)|(A & B & C)]].
        -- left. repeat split; auto. congruence.
        -- right; left. repeat split; auto; try lia. congruence.
        -- right; right. repeat split; auto. congruence.
  - (* the read fails *)
    exists [], (ReadFrom a 1 1 None), w1. cbn [app List.length].
    split; [rewrite Hl; reflexivity|]. split; [constructor|].
    split; [apply status_read_flag|]. split; [lia|].
    do 3 (split; [assumption|]).
    split; [rewrite Hst; apply incl_refl|]. split; [assumption|].
    split; [constructor; [cbn; auto | constructor]|].
    right; right. repeat split; auto.
Qed.

(** More fuel does not change a run that has not run out of it. *)
Lemma wait_loop_fuel : forall fuel fuel' c w,
  (fuel <= fuel')%nat -> wait_loop fuel c w <> OutOfFuel ->
  wait_loop fuel' c w = wait_loop fuel c w.
Proof.
  induction fuel as [|fuel IH]; intros fuel' c w Hle Hrun.
  - cbn in Hrun. congruence.
  - destruct fuel' as [|fuel']; [lia|].
    cbn [wait_loop] in *. unfold bind in *.
    destruct (get_busy_flag w) as [flag w1|e w1|]; try reflexivity.
    destruct (flag =? 1); [|reflexivity].
    destruct (c + 1 >? 9999); [reflexivity|].
    apply IH; [lia | exact Hrun].
Qed.

Lemma busy_flag_status_read (a : Z) (t : txn) (f : Z) :
  busy_flag_of a t = Some f -> status_read a t = true.
Proof.
  destruct t as [|a' m n [[|b [|]]|]]; cbn; try discriminate.
  destruct ((a' =? a) && (m =? 1) && (n =? 1)%nat); [reflexivity|discriminate].
Qed.

Lemma failed_no_flag (a : Z) (t : txn) :
  failed t = true -> busy_flag_of a t = None.
Proof.
  destruct t as [|a' m n [[|b [|]]|]]; cbn; try discriminate; reflexivity.
Qed.

Lemma wait_for_busy_fuel (w : World) : wait_for_busy w <> OutOfFuel.
Proof.
  unfold wait_for_busy.
  destruct (wait_loop_run (Z.to_nat 10000) 0 w)
    as (pre & t & w' & _ & _ & _ & _ & _ & _ & _ & _ & _ & _ & Ho);
    [lia | lia |].
  destruct Ho as [(_ & E & _)|[(_ & _ & E & _)|(_ & E & _)]];
    rewrite E; discriminate.
Qed.

(** C8: for every behaviour of the bus and of the busy flag, [wait_for_busy]
    returns after at most 10000 reads of the status register and no other
    transaction, whatever fuel of at least 10000 the loop is given; it ends
    with an error only when a read fails on the bus; when every read reports
    busy, which a device that never reports idle makes happen, it issues
    exactly 10000 reads, prints its message and returns normally. *)
Theorem wait_for_busy_bounded (fuel : nat) (w : World) :
  10000 <= Z.of_nat fuel ->
  exists p w',
    wait_loop fuel 0 w = wait_for_busy w /\
    final (wait_for_busy w) = Some w' /\
    issued w w' p /\
    Z.of_nat (List.length p) <= 10000 /\
    Forall (fun t => status_read (address (self w)) t = true) p /\
    (wait_for_busy w = Ok tt w' \/
     (wait_for_busy w = Raise OSError w' /\ budget (bus w) <> None)) /\
    (Forall (fun t => busy_flag_of (address (self w)) t = Some 1) p ->
     Z.of_nat (List.length p) = 10000 /\
     wait_for_busy w = Ok tt w' /\
     stdout w' = stdout w ++ [giving_up]) /\
    (budget (bus w) = None ->
     Forall (fun b => Z.land (byte_val b) 0x01 = 1)
            (regs (bus w) 0x01 :: status (bus w)) ->
     Forall (fun t => busy_flag_of (address (self w)) t = Some 1) p).
Proof.
  intros Hfuel.
  destruct (wait_loop_run (Z.to_nat 10000) 0 w)
    as (pre & t & w' & Hl & Hpre & Ht & Hc & _ & _ & _ & _ & _ & Ha & Ho);
    [lia | lia |].
  fold wait_for_busy in Ho.
  exists (pre ++ [t]), w'.
  assert (Hlen : Z.of_nat (List.length (pre ++ [t]))
                 = Z.of_nat (List.length pre) + 1).
  { rewrite length_app. cbn [List.length]. lia. }
  split.
  { apply wait_loop_fuel; [lia | apply wait_for_busy_fuel]. }
  split.
  { destruct Ho as [(_ & E & _)|[(_ & _ & E & _)|(_ & E & _)]];
      rewrite E; reflexivity. }
  split. { exact Hl. }
  split. { lia. }
  split.
  { apply Forall_app. split.
    - eapply Forall_impl; [|exact Hpre].
      intros x Hx. eapply busy_flag_status_read, Hx.
    - constructor; [exact Ht | constructor]. }
  split.
  { destruct Ho as [(_ & E & _)|[(_ & _ & E & _)|(F & E & _)]]; auto.
    right. split; [exact E|].
    apply Forall_app in Ha. destruct Ha as [_ Ha].
    inversion Ha as [|x l Hx _]; subst.
    destruct t as [|a m n [val|]]; cbn in F, Ht; try discriminate.
    exact Hx. }
  split.
  { intros Hall. apply Forall_app in Hall. destruct Hall as [_ Hall].
    inversion Hall as [|x l Hx _]; subst.
    destruct Ho as [(F & _)|[(_ & C & E & S)|(F & _)]].
    - congruence.
    - repeat split; auto. lia.
    - rewrite (failed_no_flag _ _ F) in Hx. discriminate. }
  intros Hb Hbusy. apply Forall_app. split; [exact Hpre|].
  constructor; [|constructor].
  apply Forall_app in Ha. destruct Ha as [_ Ha].
  inversion Ha as [|x l Hx _]; subst.
  rewrite Forall_forall in Hbusy.
  destruct t as [|a m n [[|b [|]]|]]; cbn in Hx, Ht |- *;
    try contradiction; try discriminate.
  rewrite Ht. f_equal. apply Hbusy. exact Hx.
Qed.

(** The loop with one more unit of fuel than the cap needs, on a device
    whose status register always reads busy. *)
Lemma wait_for_busy_bounded_witness :
  let w := fresh (mkI2C (fun _ => Init.Byte.x01) [] None []) in
  10000 <= Z.of_nat (Z.to_nat 10001) /\
  exists p w',
    wait_loop (Z.to_nat 10001) 0 w = wait_for_busy w /\
    final (wait_for_busy w) = Some w' /\
    issued w w' p /\
    Z.of_nat (List.length p) <= 10000 /\
    Forall (fun t => status_read (address (self w)) t = true) p /\
    (wait_for_busy w = Ok tt w' \/
     (wait_for_busy w = Raise OSError w' /\ budget (bus w) <> None)) /\
    (Forall (fun t => busy_flag_of (address (self w)) t = Some 1) p ->
     Z.of_nat (List.length p) = 10000 /\
     wait_for_busy w = Ok tt w' /\
     stdout w' = stdout w ++ [giving_up]) /\
    (budget (bus w) = None ->
     Forall (fun b => Z.land (byte_val b) 0x01 = 1)
            (regs (bus w) 0x01 :: status (bus w)) ->
     Forall (fun t => busy_flag_of (address (self w)) t = Some 1) p).
Proof.
  intros w. split; [lia|].
  apply (wait_for_busy_bounded (Z.to_nat 10001) w). lia.
Defined.

(** ** Straight-line code: evaluation on an explicit world *)

Ltac run :=
  cbv -[byte_low byte_val store Z.add Z.shiftl Z.lor Z.land app
        wait_for_busy range].

Ltac expose w :=
  destruct w as [[[r script b l] a scm acr rcm tb bc] out slept].

Ltac budget_cases b :=
  destruct b as [[|[|[|[|[|[|[|b]]]]]]]|].

Lemma lor_byte (x k : Z) :
  0 <= x < 256 -> 0 <= k < 256 -> 0 <= Z.lor x k < 256.
Proof.
  intros Hx Hk. split; [apply Z.lor_nonneg; lia|].
  assert (Lx : Z.log2 x < 8).
  { destruct (Z.eq_dec x 0) as [->|]; [cbn; lia|].
    apply Z.log2_lt_pow2; lia. }
  assert (Lk : Z.log2 k < 8).
  { destruct (Z.eq_dec k 0) as [->|]; [cbn; lia|].
    apply Z.log2_lt_pow2; lia. }
  destruct (Z.eq_dec (Z.lor x k) 0) as [E|E]; [lia|].
  assert (0 <= Z.lor x k) by (apply Z.lor_nonneg; lia).
  change 256 with (2 ^ 8). apply Z.log2_lt_pow2; [lia|].
  rewrite Z.log2_lor by lia. lia.
Qed.

Lemma byte_val_lor (b : byte) (k : Z) :
  0 <= k < 256 ->
  byte_val (byte_low (Z.lor (byte_val b) k)) = Z.lor (byte_val b) k.
Proof.
  intros Hk. apply byte_val_low, lor_byte; [apply byte_val_range | exact Hk].
Qed.

Lemma shiftl1_byte (z : Z) : 0 <= z <= 127 -> 0 <= Z.shiftl z 1 < 256.
Proof. intros H. rewrite Z.shiftl_mul_pow2 by lia. lia. Qed.

(** ** [configure] *)

Lemma configurations_unknown (mode : Z) :
  ~ 0 <= mode <= 6 -> dict_get Z.eqb configurations mode = None.
Proof.
  intros H. unfold configurations. cbn [dict_get].
  repeat match goal with
         | |- context [mode =? ?k] => destruct (Z.eqb_spec mode k); [lia|]
         end.
  reflexivity.
Qed.

Lemma mode_cases (mode : Z) :
  0 <= mode <= 6 ->
  mode = 0 \/ mode = 1 \/ mode = 2 \/ mode = 3 \/ mode = 4 \/ mode = 5 \/
  mode = 6.
Proof. lia. Qed.

Ltac each_mode H :=
  destruct (mode_cases _ H) as [->|[->|[->|[->|[->|[->| ->]]]]]].


(** C7: for every id outside 0..6, [configure] fails with the error of the
    missing table entry ([KeyError]) in the very world it was called in: no
    bus transaction is issued and no attribute is changed.  For the ids 0..6
    the table has an entry and [configure] never fails with that error. *)
Theorem configure_unknown_mode (mode : Z) (w : World) :
  (~ 0 <= mode <= 6 -> configure mode w = Raise KeyError w) /\
  (0 <= mode <= 6 ->
   dict_get Z.eqb configurations mode <> None /\
   forall w', configure mode w <> Raise KeyError w').
Proof.
  split.
  - intros H. unfold configure, configuration, bind at 1 2, subscript.
    rewrite (configurations_unknown mode H). reflexivity.
  - intros H. split.
    + each_mode H; discriminate.
    + intros w'. expose w.
      destruct b as [[|[|[|[|k]]]]|]; each_mode H; run; discriminate.
Qed.

(** Mode 7 is refused before any traffic; mode 3 is found. *)
Lemma configure_unknown_mode_witness :
  configure 7 (fresh (blank [] None)) = Raise KeyError (fresh (blank [] None))
  /\ dict_get Z.eqb configurations 3 <> None
  /\ forall w', configure 3 (fresh (blank [] None)) <> Raise KeyError w'.
Proof.
  split.
  - apply (proj1 (configure_unknown_mode 7 (fresh (blank [] None)))). lia.
  - apply (proj2 (configure_unknown_mode 3 (fresh (blank [] None)))). lia.
Defined.

(** C5: for every profile id in 0..6, on a bus where the coming four
    transactions succeed, [configure] returns and issues exactly four
    transactions: one-byte writes of the profile's documented
    sig_count_max, acq_config_reg, ref_count_max and threshold_bypass to
    the registers 0x02, 0x04, 0x12 and 0x1c, in this order. *)
Theorem configure_writes_profile (mode : Z) (w : World) :
  0 <= mode <= 6 -> enough 4 (bus w) ->
  exists s a r t w',
    documented_profile mode = Some (s, a, r, t) /\
    configure mode w = Ok tt w' /\
    issued w w'
      [WriteTo (address (self w)) 0x02 [byte_low s] true;
       WriteTo (address (self w)) 0x04 [byte_low a] true;
       WriteTo (address (self w)) 0x12 [byte_low r] true;
       WriteTo (address (self w)) 0x1c [byte_low t] true] /\
    byte_val (byte_low s) = s /\ byte_val (byte_low a) = a /\
    byte_val (byte_low r) = r /\ byte_val (byte_low t) = t.
Proof.
  intros H Hb. expose w. unfold enough in Hb. cbn in Hb.
  assert (Hk : b = None \/ exists k, b = Some (S (S (S (S k))))).
  { destruct b as [k|]; [right|left; reflexivity].
    do 4 (destruct k as [|k]; [lia|]). exists k. reflexivity. }
  destruct Hk as [->|[k ->]]; each_mode H;
    do 5 eexists;
    (split; [reflexivity|]);
    (split; [run; reflexivity|]);
    (split; [unfold issued; run; rewrite <- !app_assoc; reflexivity|]);
    repeat split; vm_compute; reflexivity.
Qed.

(** Profile 1 on a bus that never fails. *)
Lemma configure_writes_profile_witness :
  0 <= 1 <= 6 /\ enough 4 (bus (fresh (blank [] None))) /\
  exists w',
    configure 1 (fresh (blank [] None)) = Ok tt w' /\
    issued (fresh (blank [] None)) w'
      [WriteTo 0x62 0x02 [Init.Byte.x1d] true;
       WriteTo 0x62 0x04 [Init.Byte.x08] true;
       WriteTo 0x62 0x12 [Init.Byte.x03] true;
       WriteTo 0x62 0x1c [Init.Byte.x03] true].
Proof.
  assert (H1 : 0 <= 1 <= 6) by lia.
  assert (H2 : enough 4 (bus (fresh (blank [] None)))) by exact I.
  split; [exact H1|]. split; [exact H2|].
  destruct (configure_writes_profile 1 (fresh (blank [] None)) H1 H2)
    as (s & a & r & t & w' & Hdoc & Hrun & Hlog & _).
  injection Hdoc as <- <- <- <-.
  exists w'. split; [exact Hrun | exact Hlog].
Defined.

(** C2, the claim as stated, fails: on a bus whose first transaction fails,
    [configure 1] raises with no register written, yet the mirror
    attributes already hold the values of profile 1. *)
Lemma configure_mirror_ahead_of_device :
  ~ mirror_follows_writes 1 (fresh (blank [] (Some 0%nat))).
Proof.
  intros H.
  destruct (configure 1 (fresh (blank [] (Some 0%nat))))
    as [u w'|e w'|] eqn:E.
  1, 3: vm_compute in E; discriminate.
  pose proof (H e w' [WriteTo 0x62 0x02 [Init.Byte.x1d] false] E) as H'.
  vm_compute in E. injection E as _ <-.
  destruct H' as (_ & _ & _ & H4); [reflexivity|].
  specialize (H4 eq_refl). vm_compute in H4. discriminate.
Qed.

(** C2 as amended: for every profile id in 0..6, [configure] assigns the
    four mirror attributes from the profile before it issues the first
    write: however the writes end, all succeeding or one failing, the
    attributes hold the documented values of the profile afterwards, and
    they do so even when the first write fails and the device registers are
    what they were. *)
Theorem configure_sets_mirror_first (mode : Z) (w : World) :
  0 <= mode <= 6 ->
  exists s a r t w',
    documented_profile mode = Some (s, a, r, t) /\
    final (configure mode w) = Some w' /\
    sig_count_max (self w') = s /\
    acq_config_reg (self w') = a /\
    ref_count_max (self w') = r /\
    threshold_bypass (self w') = t /\
    (budget (bus w) = Some 0%nat ->
     issued w w' [WriteTo (address (self w)) 0x02 [byte_low s] false] /\
     regs (bus w') = regs (bus w)).
Proof.
  intros H. expose w.
  destruct b as [[|[|[|[|k]]]]|]; each_mode H;
    do 5 eexists;
    (split; [reflexivity|]);
    (split; [run; reflexivity|]);
    run; repeat split; try reflexivity; discriminate.
Qed.

(** Profile 6 on a bus whose second transaction fails. *)
Lemma configure_sets_mirror_first_witness :
  0 <= 6 <= 6 /\
  exists w',
    final (configure 6 (fresh (blank [] (Some 1%nat)))) = Some w' /\
    sig_count_max (self w') = 0x04 /\
    acq_config_reg (self w') = 0x01 /\
    ref_count_max (self w') = 0x03 /\
    threshold_bypass (self w') = 0x00.
Proof.
  assert (H : 0 <= 6 <= 6) by lia.
  split; [exact H|].
  destruct (configure_sets_mirror_first 6 (fresh (blank [] (Some 1%nat))) H)
    as (s & a & r & t & w' & Hdoc & Hrun & Hs & Ha & Hr & Ht & _).
  injection Hdoc as <- <- <- <-.
  exists w'. repeat split; assumption.
Defined.

(** ** [change_i2c_address] *)

(** C3, the claim as stated, fails: on a bus that never fails,
    [change_i2c_address 0x70] without [disable_default] returns after five
    transactions, not four. *)
Lemma change_i2c_address_five_not_four :
  ~ change_address_counts (fresh (blank [] None)).
Proof.
  intros [(u & w' & p & E & Hp & Hn) _].
  vm_compute in E. injection E as _ <-.
  unfold issued in Hp. cbn in Hp. subst p. discriminate.
Qed.

(** C3 as amended: when its transactions succeed, [change_i2c_address 0x70]
    issues exactly five of them without [disable_default] (read 0x16, write
    0x18, write 0x1a, read 0x1e, write 0x1e) and exactly seven with it (a
    second read and write of 0x1e); the first byte written to 0x1a is
    [0x70 << 1], that is 0xE0; the writes to 0x1e set bit 4, then bit 3, of
    the byte just read. *)
Theorem change_i2c_address_transactions (disable_default : bool) (w : World) :
  enough (if disable_default then 7 else 5) (bus w) ->
  exists u0 u1 b0 f f' rest w',
    change_i2c_address 0x70 disable_default w = Ok tt w' /\
    issued w w'
      ([ReadFrom (address (self w)) 0x16 2 (Some [u0; u1]);
        WriteTo (address (self w)) 0x18 [u0; u1] true;
        WriteTo (address (self w)) 0x1a [b0; u1] true;
        ReadFrom 0x70 0x1e 1 (Some [f]);
        WriteTo 0x70 0x1e [f'] true] ++ rest) /\
    byte_val b0 = Z.shiftl 0x70 1 /\ byte_val b0 = 0xE0 /\
    byte_val f' = Z.lor (byte_val f) 0x10 /\
    (disable_default = false -> rest = []) /\
    (disable_default = true ->
     exists g g', rest = [ReadFrom 0x70 0x1e 1 (Some [g]);
                          WriteTo 0x70 0x1e [g'] true] /\
                  byte_val g' = Z.lor (byte_val g) 0x08) /\
    List.length
      ([ReadFrom (address (self w)) 0x16 2 (Some [u0; u1]);
        WriteTo (address (self w)) 0x18 [u0; u1] true;
        WriteTo (address (self w)) 0x1a [b0; u1] true;
        ReadFrom 0x70 0x1e 1 (Some [f]);
        WriteTo 0x70 0x1e [f'] true] ++ rest)
    = (if disable_default then 7 else 5)%nat.
Proof.
  intros Hb. expose w. unfold enough in Hb. cbn in Hb.
  destruct disable_default.
  - assert (Hk : b = None \/
                 exists k, b = Some (S (S (S (S (S (S (S k)))))))).
    { destruct b as [k|]; [right|left; reflexivity].
      do 7 (destruct k as [|k]; [lia|]). exists k. reflexivity. }
    destruct Hk as [->|[k ->]];
      do 7 eexists; (split; [run; reflexivity|]);
      (split; [unfold issued; run; rewrite <- !app_assoc; cbn [app];
               reflexivity|]);
      (split; [vm_compute; reflexivity|]);
      (split; [vm_compute; reflexivity|]);
      (split; [apply byte_val_lor; lia|]);
      (split; [discriminate|]);
      (split; [|reflexivity]);
      intros _; do 2 eexists; (split; [reflexivity|]);
      apply byte_val_lor; lia.
  - assert (Hk : b = None \/ exists k, b = Some (S (S (S (S (S k)))))).
    { destruct b as [k|]; [right|left; reflexivity].
      do 5 (destruct k as [|k]; [lia|]). exists k. reflexivity. }
    destruct Hk as [->|[k ->]];
      do 7 eexists; (split; [run; reflexivity|]);
      (split; [unfold issued; run; rewrite <- !app_assoc; cbn [app];
               reflexivity|]);
      (split; [vm_compute; reflexivity|]);
      (split; [vm_compute; reflexivity|]);
      (split; [apply byte_val_lor; lia|]);
      (split; [reflexivity|]);
      (split; [discriminate|reflexivity]).
Qed.

(** With [disable_default], on a bus that never fails. *)
Lemma change_i2c_address_transactions_witness :
  enough 7 (bus (fresh (blank [] None))) /\
  exists w' p,
    change_i2c_address 0x70 true (fresh (blank [] None)) = Ok tt w' /\
    issued (fresh (blank [] None)) w' p /\ List.length p = 7%nat.
Proof.
  assert (H : enough 7 (bus (fresh (blank [] None)))) by exact I.
  split; [exact H|].
  destruct (change_i2c_address_transactions true (fresh (blank [] None)) H)
    as (u0 & u1 & b0 & f & f' & rest & w' & Hrun & Hlog & _ & _ & _ & _ & _
        & Hlen).
  exists w'. eexists. split; [exact Hrun|]. split; [exact Hlog | exact Hlen].
Defined.

(** C4: the code does not meet the claim.  From the address 0x62,
    [change_i2c_address 0x70] on a bus that never fails issues the read
    and the write of register 0x1e that enable the new address at 0x70,
    not at 0x62; and when the fourth transaction fails, as it does on a
    device that does not answer at an address not yet enabled, the call
    raises with the [address] attribute already 0x70 although no write to
    0x1e has completed.  The claim as stated fails at this input. *)
Theorem change_i2c_address_enables_at_new_address :
  (exists w',
     change_i2c_address 0x70 false (fresh (blank [] None)) = Ok tt w' /\
     log (bus w') =
       [ReadFrom 0x62 0x16 2 (Some [Init.Byte.x00; Init.Byte.x00]);
        WriteTo 0x62 0x18 [Init.Byte.x00; Init.Byte.x00] true;
        WriteTo 0x62 0x1a [Init.Byte.xe0; Init.Byte.x00] true;
        ReadFrom 0x70 0x1e 1 (Some [Init.Byte.x00]);
        WriteTo 0x70 0x1e [Init.Byte.x10] true]) /\
  (exists w',
     change_i2c_address 0x70 false (fresh (blank [] (Some 3%nat)))
       = Raise OSError w' /\
     log (bus w') =
       [ReadFrom 0x62 0x16 2 (Some [Init.Byte.x00; Init.Byte.x00]);
        WriteTo 0x62 0x18 [Init.Byte.x00; Init.Byte.x00] true;
        WriteTo 0x62 0x1a [Init.Byte.xe0; Init.Byte.x00] true;
        ReadFrom 0x70 0x1e 1 None] /\
     address (self (fresh (blank [] (Some 3%nat)))) = 0x62 /\
     address (self w') = 0x70) /\
  ~ switches_after_enable 0x70 (fresh (blank [] None)).
Proof.
  split.
  { eexists. split; [vm_compute; reflexivity|]. reflexivity. }
  split.
  { eexists. split; [vm_compute; reflexivity|]. repeat split. }
  intros H.
  destruct (final (change_i2c_address 0x70 false (fresh (blank [] None))))
    as [w'|] eqn:E; [|vm_compute in E; discriminate].
  pose proof (H w' (log (bus w')) E eq_refl) as [H' _].
  vm_compute in E. injection E as <-.
  vm_compute in H'.
  inversion H' as [|? ? _ H1]; subst. inversion H1 as [|? ? _ H2]; subst.
  inversion H2 as [|? ? _ H3]; subst. inversion H3 as [|? ? H4 _]; subst.
  specialize (H4 eq_refl). discriminate.
Qed.

(** What the code does, for every new address, every choice of
    [disable_default] and every behaviour of the bus:
    [change_i2c_address] issues its transactions in the order 0x16, 0x18,
    0x1a, then 0x1e; those on 0x16, 0x18 and 0x1a go to the old address
    and every one on 0x1e goes to the new address; afterwards the
    [address] attribute is the new address exactly when the first three
    transactions, up to the write to 0x1a, have succeeded. *)
Theorem change_i2c_address_switch (new : Z) (d : bool) (w : World) :
  exists w' p,
    final (change_i2c_address new d w) = Some w' /\
    issued w w' p /\
    map memaddr_of p
      = firstn (List.length p) [0x16; 0x18; 0x1a; 0x1e; 0x1e; 0x1e; 0x1e] /\
    Forall (fun t => addr_of t = if memaddr_of t =? 0x1e then new
                                 else address (self w)) p /\
    address (self w') = (if (3 <=? completed p)%nat then new
                         else address (self w)).
Proof.
  expose w.
  destruct d; budget_cases b;
    do 2 eexists;
    (split; [run; reflexivity|]);
    (split; [unfold issued; run; rewrite <- ?app_assoc; cbn [app];
             reflexivity|]);
    (split; [reflexivity|]);
    (split; [repeat constructor|]);
    reflexivity.
Qed.

(** C10: for every 7-bit new address and every behaviour of the bus, a
    write to register 0x1a that [change_i2c_address] issues goes to the old
    address and carries exactly two bytes: the first is [new << 1], the
    second is the second byte of the unit id that the first transaction
    read from register 0x16.  When the coming three transactions succeed
    the write is issued. *)
Theorem change_i2c_address_payload (new : Z) (d : bool) (w : World) :
  0 <= new <= 127 ->
  exists w' p,
    final (change_i2c_address new d w) = Some w' /\
    issued w w' p /\
    (forall a buf ok, In (WriteTo a 0x1a buf ok) p ->
       exists b0 u0 u1,
         buf = [b0; u1] /\ byte_val b0 = Z.shiftl new 1 /\
         a = address (self w) /\
         nth_error p 0
           = Some (ReadFrom (address (self w)) 0x16 2 (Some [u0; u1]))) /\
    (enough 3 (bus w) ->
     exists buf, In (WriteTo (address (self w)) 0x1a buf true) p).
Proof.
  intros Hnew. expose w.
  destruct d; budget_cases b;
    do 2 eexists;
    (split; [run; reflexivity|]);
    (split; [unfold issued; run; rewrite <- ?app_assoc; cbn [app];
             reflexivity|]);
    (split;
     [ intros a' buf ok HIn; cbn [In] in HIn;
       repeat (destruct HIn as [HIn|HIn]; [try discriminate HIn|]);
       try contradiction;
       injection HIn as <- <- <-;
       do 3 eexists; (split; [reflexivity|]);
       (split; [apply byte_val_low, shiftl1_byte, Hnew|]);
       split; reflexivity
     | unfold enough; cbn [bus self i2c budget]; intros Hb; try lia;
       eexists; cbn [In]; right; right; left; reflexivity ]).
Qed.

(** The address 0x70 on a bus that never fails. *)
Lemma change_i2c_address_payload_witness :
  0 <= 0x70 <= 127 /\
  exists w' p,
    final (change_i2c_address 0x70 false (fresh (blank [] None))) = Some w' /\
    issued (fresh (blank [] None)) w' p /\
    exists buf, In (WriteTo 0x62 0x1a buf true) p /\
      exists b0 u1, buf = [b0; u1] /\ byte_val b0 = Z.shiftl 0x70 1.
Proof.
  assert (H : 0 <= 0x70 <= 127) by lia.
  split; [exact H|].
  destruct (change_i2c_address_payload 0x70 false (fresh (blank [] None)) H)
    as (w' & p & Hrun & Hlog & Hall & Hex).
  destruct (Hex I) as (buf & Hin).
  destruct (Hall _ _ _ Hin) as (b0 & u0 & u1 & Hbuf & Hb0 & _).
  exists w', p. split; [exact Hrun|]. split; [exact Hlog|].
  exists buf. split; [exact Hin|]. exists b0, u1. split; assumption.
Defined.

(** ** Composition of runs on a bus that never fails *)

Lemma same_driver_trans (w1 w2 w3 : World) :
  same_driver w1 w2 -> same_driver w2 w3 -> same_driver w1 w3.
Proof. unfold same_driver. intuition congruence. Qed.

Lemma step_trans (w1 w2 w3 : World) (p q : list txn) (r r' : Z -> byte) :
  step w1 w2 p r -> step w2 w3 q r' -> step w1 w3 (p ++ q) r'.
Proof.
  unfold step, issued. intros (Hl & Hd & _ & _) (Hl' & Hd' & Hr & Hb).
  split; [rewrite Hl', Hl, app_assoc; reflexivity|].
  split; [eapply same_driver_trans; eauto|]. split; assumption.
Qed.

Lemma write_reliable (register : Z) (value : list byte) (w : World) :
  budget (bus w) = None ->
  exists w',
    write register value w = Ok tt w' /\
    step w w' [WriteTo (address (self w)) register value true]
         (store (regs (bus w)) register value).
Proof.
  expose w. unfold bus at 1. cbn [self i2c budget]. intros ->.
  eexists. split; [run; reflexivity|].
  unfold step, issued, same_driver. run. repeat split.
Qed.

Lemma read_reliable (register : Z) (nbytes : nat) (w : World) :
  register <> 0x01 -> budget (bus w) = None ->
  exists w',
    read register nbytes w = Ok (fetch (regs (bus w)) register nbytes) w' /\
    step w w' [ReadFrom (address (self w)) register nbytes
                 (Some (fetch (regs (bus w)) register nbytes))]
         (regs (bus w)).
Proof.
  intros Hreg. expose w. unfold bus at 1. cbn [self i2c budget]. intros ->.
  rewrite read_run. unfold after_read, readfrom_mem, answer, bus.
  cbn [self i2c budget regs status log address spend].
  destruct (Z.eqb_spec register 1) as [|_]; [contradiction|].
  cbn [snd fst].
  eexists. split; [reflexivity|].
  unfold step, issued, same_driver. cbn. repeat split.
Qed.

Lemma wait_for_busy_reliable (w : World) :
  budget (bus w) = None ->
  exists p w',
    wait_for_busy w = Ok tt w' /\
    poll_until_idle (address (self w)) p /\
    step w w' p (regs (bus w)).
Proof.
  intros Hb.
  destruct (wait_loop_run (Z.to_nat 10000) 0 w)
    as (pre & t & w' & Hl & Hpre & Ht & Hc & Hd & _ & Hr & _ & Hb' & Ha & Ho);
    [lia | lia |].
  fold wait_for_busy in Ho.
  assert (Hlen : Z.of_nat (List.length (pre ++ [t]))
                 = Z.of_nat (List.length pre) + 1).
  { rewrite length_app. cbn [List.length]. lia. }
  assert (Hstep : step w w' (pre ++ [t]) (regs (bus w))).
  { repeat split; auto; apply Hd. }
  exists (pre ++ [t]), w'.
  destruct Ho as [(F & E & _)|[(F & C & E & _)|(F & E & _)]].
  - split; [exact E|]. split; [|exact Hstep].
    exists pre, t. auto.
  - split; [exact E|]. split; [|exact Hstep].
    exists pre, t. split; [reflexivity|]. split; [exact Hpre|].
    right. split; [exact F | lia].
  - exfalso. apply Forall_app in Ha. destruct Ha as [_ Ha].
    inversion Ha as [|x l Hx _]; subst.
    destruct t as [|a m n [val|]]; cbn in F, Hx; try discriminate.
    contradiction.
Qed.

Lemma write_reliable_status (register : Z) (value : list byte) (w w' : World) :
  write register value w = Ok tt w' -> status (bus w') = status (bus w).
Proof.
  expose w. unfold write, bind, get_self, i2c_writeto_mem, writeto_mem, bus.
  cbn [self i2c budget status].
  destruct (spend b); cbn; intros E; [|discriminate].
  injection E as <-. reflexivity.
Qed.

Lemma take_range_write (w : World) :
  take_range w = write 0x00 [Init.Byte.x01] w.
Proof. reflexivity. Qed.

Lemma read_distance_reliable (w : World) :
  budget (bus w) = None ->
  exists w',
    read_distance w = Ok (distance (regs (bus w))) w' /\
    step w w' [ReadFrom (address (self w)) 0x0f 2
                 (Some [regs (bus w) 0x0f; regs (bus w) 0x10])]
         (regs (bus w)).
Proof.
  intros Hb.
  destruct (read_reliable 0x0f 2 w) as (w' & E & Hs); [lia | exact Hb |].
  exists w'. split; [|exact Hs].
  unfold read_distance, bind. rewrite E. reflexivity.
Qed.

Lemma range_reliable (w : World) :
  budget (bus w) = None ->
  exists p1 p2 w',
    range w = Ok (distance (regs (bus w))) w' /\
    poll_until_idle (address (self w)) p1 /\
    poll_until_idle (address (self w)) p2 /\
    step w w'
      (p1 ++ [WriteTo (address (self w)) 0x00 [Init.Byte.x01] true] ++ p2 ++
       [ReadFrom (address (self w)) 0x0f 2
          (Some [regs (bus w) 0x0f; regs (bus w) 0x10])])
      (store (regs (bus w)) 0x00 [Init.Byte.x01]).
Proof.
  intros Hb.
  destruct (wait_for_busy_reliable w Hb) as (p1 & w1 & E1 & P1 & S1).
  destruct (write_reliable 0x00 [Init.Byte.x01] w1) as (w2 & E2 & S2);
    [apply S1|].
  destruct (wait_for_busy_reliable w2) as (p2 & w3 & E3 & P2 & S3);
    [apply S2|].
  destruct (read_distance_reliable w3) as (w4 & E4 & S4); [apply S3|].
  assert (A1 : address (self w1) = address (self w)) by apply S1.
  assert (A2 : address (self w2) = address (self w)).
  { rewrite <- A1. apply S2. }
  assert (A3 : address (self w3) = address (self w)).
  { rewrite <- A2. apply S3. }
  assert (R1 : regs (bus w1) = regs (bus w)) by apply S1.
  assert (R3 : regs (bus w3) = store (regs (bus w)) 0 [Init.Byte.x01]).
  { destruct S3 as (_ & _ & -> & _). destruct S2 as (_ & _ & -> & _).
    rewrite R1. reflexivity. }
  rewrite A1 in S2. rewrite A2 in P2. rewrite A3 in S4.
  rewrite R3 in E4, S4.
  exists p1, p2, w4.
  split.
  { unfold range, bind. rewrite E1, take_range_write, E2, E3, E4.
    reflexivity. }
  split; [exact P1|]. split; [exact P2|].
  eapply step_trans; [exact S1|].
  eapply step_trans; [exact S2|].
  eapply step_trans; [exact S3|].
  exact S4.
Qed.

(** ** [range] and [range_fast] *)

(** C6: on a bus that never fails, every call of [range] returns, and the
    transactions it issues are, in this order: a poll until idle, the write
    of the byte 0x01 to register 0x00, a second poll until idle, and one
    read of two bytes at register 0x0f.  The value returned is
    [(hi << 8) | lo] for the two bytes [hi], [lo] of that read, which are
    the contents of the distance registers: 300 when they hold 0x01 and
    0x2c. *)
Theorem range_sequence (w : World) :
  budget (bus w) = None ->
  exists p1 p2 hi lo w',
    range w = Ok (Z.lor (Z.shiftl (byte_val hi) 8) (byte_val lo)) w' /\
    issued w w'
      (p1 ++ [WriteTo (address (self w)) 0x00 [Init.Byte.x01] true] ++ p2 ++
       [ReadFrom (address (self w)) 0x0f 2 (Some [hi; lo])]) /\
    poll_until_idle (address (self w)) p1 /\
    poll_until_idle (address (self w)) p2 /\
    hi = regs (bus w) 0x0f /\ lo = regs (bus w) 0x10 /\
    (hi = Init.Byte.x01 -> lo = Init.Byte.x2c -> range w = Ok 300 w').
Proof.
  intros Hb.
  destruct (range_reliable w Hb) as (p1 & p2 & w' & E & P1 & P2 & S).
  exists p1, p2, (regs (bus w) 0x0f), (regs (bus w) 0x10), w'.
  split; [exact E|]. split; [apply S|].
  split; [exact P1|]. split; [exact P2|].
  split; [reflexivity|]. split; [reflexivity|].
  intros H1 H2. rewrite E. unfold distance. rewrite H1, H2. reflexivity.
Qed.

(** The device whose distance registers hold 0x01 and 0x2c. *)
Lemma range_sequence_witness :
  budget (bus (fresh ranging_device)) = None /\
  exists w', range (fresh ranging_device) = Ok 300 w'.
Proof.
  assert (H : budget (bus (fresh ranging_device)) = None) by reflexivity.
  split; [exact H|].
  destruct (range_sequence (fresh ranging_device) H)
    as (p1 & p2 & hi & lo & w' & _ & _ & _ & _ & Hhi & Hlo & H300).
  exists w'. apply H300; [rewrite Hhi | rewrite Hlo]; reflexivity.
Defined.

Lemma wait_for_busy_idle (w : World) :
  budget (bus w) = None -> idle (next_status (bus w)) ->
  exists w',
    wait_for_busy w = Ok tt w' /\
    step w w' [ReadFrom (address (self w)) 0x01 1
                 (Some [next_status (bus w)])] (regs (bus w)) /\
    status (bus w') = tl (status (bus w)).
Proof.
  intros Hb Hidle. exists (after_read w 0x01 1).
  destruct (after_status_read w) as (Hd & _ & _ & Hr & Hl & Hst & Hb' & _).
  rewrite Hb in Hl, Hst. cbn [spend] in Hl, Hst.
  split.
  - unfold wait_for_busy.
    change (Z.to_nat 10000) with (S (Z.to_nat 9999)).
    cbn [wait_loop]. unfold bind. rewrite get_busy_flag_run, Hb.
    cbn [spend]. unfold idle in Hidle. rewrite Hidle. reflexivity.
  - split; [|exact Hst]. repeat split; auto; apply Hd.
Qed.

Lemma idle_next (dev : I2C) :
  Forall idle (regs dev 0x01 :: status dev) -> idle (next_status dev).
Proof.
  unfold next_status. intros H. inversion H as [|x l H1 H2]; subst.
  destruct (status dev); [exact H1|]. inversion H2; assumption.
Qed.

(** C9: on a bus that never fails and a device whose busy flag reads idle
    on every poll, [range] issues four transactions (status read, trigger
    write, status read, distance read) and [range_fast] issues the same
    ones but for the status read after the trigger, that is three; both
    return [(hi << 8) | lo] for the same two bytes of the distance read. *)
Theorem range_fast_skips_one_poll (w : World) :
  budget (bus w) = None ->
  Forall idle (regs (bus w) 0x01 :: status (bus w)) ->
  exists s1 s2 hi lo w1 w2,
    range w = Ok (Z.lor (Z.shiftl (byte_val hi) 8) (byte_val lo)) w1 /\
    range_fast w = Ok (Z.lor (Z.shiftl (byte_val hi) 8) (byte_val lo)) w2 /\
    issued w w1
      [ReadFrom (address (self w)) 0x01 1 (Some [s1]);
       WriteTo (address (self w)) 0x00 [Init.Byte.x01] true;
       ReadFrom (address (self w)) 0x01 1 (Some [s2]);
       ReadFrom (address (self w)) 0x0f 2 (Some [hi; lo])] /\
    issued w w2
      [ReadFrom (address (self w)) 0x01 1 (Some [s1]);
       WriteTo (address (self w)) 0x00 [Init.Byte.x01] true;
       ReadFrom (address (self w)) 0x0f 2 (Some [hi; lo])] /\
    idle s1 /\ idle s2.
Proof.
  intros Hb Hidle.
  destruct (wait_for_busy_idle w Hb (idle_next _ Hidle))
    as (w1 & E1 & S1 & T1).
  destruct (write_reliable 0x00 [Init.Byte.x01] w1) as (w2 & E2 & S2);
    [apply S1|].
  pose proof (write_reliable_status _ _ _ _ E2) as T2.
  assert (A1 : address (self w1) = address (self w)) by apply S1.
  assert (A2 : address (self w2) = address (self w)).
  { rewrite <- A1. apply S2. }
  assert (R1 : regs (bus w1) = regs (bus w)) by apply S1.
  assert (R2 : regs (bus w2) = store (regs (bus w)) 0 [Init.Byte.x01]).
  { destruct S2 as (_ & _ & -> & _). rewrite R1. reflexivity. }
  assert (Hidle2 : Forall idle (regs (bus w2) 0x01 :: status (bus w2))).
  { rewrite R2, T2, T1. inversion Hidle as [|x l H1 H2]; subst.
    constructor; [exact H1|].
    destruct (status (bus w)); [constructor|]. inversion H2; assumption. }
  destruct (wait_for_busy_idle w2) as (w3 & E3 & S3 & _);
    [apply S2 | apply idle_next, Hidle2 |].
  destruct (read_distance_reliable w3) as (w4 & E4 & S4); [apply S3|].
  destruct (read_distance_reliable w2) as (w4' & E4' & S4'); [apply S2|].
  assert (A3 : address (self w3) = address (self w)).
  { rewrite <- A2. apply S3. }
  assert (R3 : regs (bus w3) = store (regs (bus w)) 0 [Init.Byte.x01]).
  { destruct S3 as (_ & _ & -> & _). exact R2. }
  rewrite A1 in S2. rewrite A2 in S3, S4'. rewrite A3 in S4.
  rewrite R3 in E4, S4. rewrite R2 in E4', S4'.
  exists (next_status (bus w)), (next_status (bus w2)),
    (regs (bus w) 0x0f), (regs (bus w) 0x10), w4, w4'.
  split.
  { unfold range, bind. rewrite E1, take_range_write, E2, E3, E4.
    reflexivity. }
  split.
  { unfold range_fast, bind. rewrite E1, take_range_write, E2, E4'.
    reflexivity. }
  split.
  { apply (step_trans _ _ _ _ _ _ _ S1
             (step_trans _ _ _ _ _ _ _ S2
                (step_trans _ _ _ _ _ _ _ S3 S4))). }
  split.
  { apply (step_trans _ _ _ _ _ _ _ S1 (step_trans _ _ _ _ _ _ _ S2 S4')). }
  split; [apply idle_next, Hidle | apply idle_next, Hidle2].
Qed.

(** The device that always reads idle. *)
Lemma range_fast_skips_one_poll_witness :
  budget (bus (fresh ranging_device)) = None /\
  Forall idle (regs (bus (fresh ranging_device)) 0x01
               :: status (bus (fresh ranging_device))) /\
  exists d w1 w2 p1 p2,
    range (fresh ranging_device) = Ok d w1 /\
    range_fast (fresh ranging_device) = Ok d w2 /\
    issued (fresh ranging_device) w1 p1 /\
    issued (fresh ranging_device) w2 p2 /\
    List.length p1 = 4%nat /\ List.length p2 = 3%nat.
Proof.
  assert (H1 : budget (bus (fresh ranging_device)) = None) by reflexivity.
  assert (H2 : Forall idle (regs (bus (fresh ranging_device)) 0x01
                            :: status (bus (fresh ranging_device)))).
  { constructor; [reflexivity | constructor]. }
  split; [exact H1|]. split; [exact H2|].
  destruct (range_fast_skips_one_poll (fresh ranging_device) H1 H2)
    as (s1 & s2 & hi & lo & w1 & w2 & E1 & E2 & L1 & L2 & _).
  do 5 eexists. split; [exact E1|]. split; [exact E2|].
  split; [exact L1|]. split; [exact L2|]. split; reflexivity.
Defined.

(** ** [reset_reference_filter] *)

(** On a bus that never fails, [reset_reference_filter] returns; register
    0x04 holds what it held before the call, and register 0x12 holds that
    byte with bit 4 set: the value read back as the reference count is the
    one the first write had just put there. *)
Lemma reset_reference_filter_reliable (w : World) :
  budget (bus w) = None ->
  exists w',
    reset_reference_filter w = Ok tt w' /\
    regs (bus w') 0x04 = regs (bus w) 0x04 /\
    regs (bus w') 0x12 = byte_low (Z.lor (byte_val (regs (bus w) 0x04)) 0x10).
Proof.
  intros Hb.
  destruct (read_reliable 0x04 1 w) as (w1 & E1 & S1); [lia | exact Hb |].
  set (acq := regs (bus w) 0x04) in *.
  set (dis := byte_low (Z.lor (byte_val acq) 0x10)).
  destruct (write_reliable 0x12 [dis] w1) as (w2 & E2 & S2); [apply S1|].
  destruct (read_reliable 0x12 1 w2) as (w3 & E3 & S3); [lia | apply S2 |].
  destruct (write_reliable 0x12 [byte_low 0xff] w3) as (w4 & E4 & S4);
    [apply S3|].
  destruct (range_reliable w4) as (p1 & p2 & w5 & E5 & _ & _ & S5);
    [apply S4|].
  destruct (write_reliable 0x12 [dis] w5) as (w6 & E6 & S6); [apply S5|].
  destruct (write_reliable 0x04 [acq] w6) as (w7 & E7 & S7); [apply S6|].
  assert (R2 : regs (bus w2) 0x12 = dis).
  { destruct S2 as (_ & _ & -> & _). reflexivity. }
  exists w7. split.
  - unfold reset_reference_filter, bind.
    rewrite E1. cbn [fetch item nth_error ret setitem0].
    fold acq. fold dis.
    rewrite E2, E3. cbn [fetch item nth_error ret setitem0].
    rewrite R2.
    rewrite E4, E5. rewrite !byte_low_val. rewrite E6, E7. reflexivity.
  - destruct S7 as (_ & _ & -> & _). destruct S6 as (_ & _ & -> & _).
    destruct S5 as (_ & _ & -> & _). destruct S4 as (_ & _ & -> & _).
    destruct S3 as (_ & _ & -> & _). destruct S2 as (_ & _ & -> & _).
    destruct S1 as (_ & _ & -> & _).
    split; reflexivity.
Qed.

(** C1: on the device whose register 0x04 holds 0x08 and 0x12 holds 0x05,
    [reset_reference_filter] returns with register 0x04 at 0x08 and register
    0x12 at 0x18: the reference count is not restored. *)
Theorem reset_reference_filter_loses_ref_count :
  exists w',
    reset_reference_filter (fresh ranging_device) = Ok tt w' /\
    regs (bus (fresh ranging_device)) 0x12 = Init.Byte.x05 /\
    regs (bus w') 0x12 = Init.Byte.x18 /\
    regs (bus w') 0x04 = Init.Byte.x08 /\
    ~ restores_registers (fresh ranging_device).
Proof.
  destruct (reset_reference_filter (fresh ranging_device))
    as [u w'|e w'|] eqn:E.
  2, 3: vm_compute in E; discriminate.
  destruct u. exists w'. split; [reflexivity|].
  assert (H12 : regs (bus w') 0x12 = Init.Byte.x18).
  { vm_compute in E. injection E as <-. reflexivity. }
  assert (H04 : regs (bus w') 0x04 = Init.Byte.x08).
  { vm_compute in E. injection E as <-. reflexivity. }
  repeat split; auto.
  intros H. destruct (H w' E) as [H' _]. rewrite H12 in H'. discriminate.
Qed.

(** * Further properties of the driver *)

(** ** Runs on every bus: the rules *)

Lemma completed_writes_app (p q : list txn) :
  completed_writes (p ++ q) = (completed_writes p + completed_writes q)%nat.
Proof.
  unfold completed_writes. rewrite filter_app, length_app. reflexivity.
Qed.

Lemma frame_refl (touched : Z -> Prop) (w : World) : frame touched w w [].
Proof.
  unfold frame, issued, same_driver. rewrite app_nil_r. cbn.
  repeat split; auto. lia.
Qed.

Lemma frame_trans (touched : Z -> Prop) (w1 w2 w3 : World) (p q : list txn) :
  frame touched w1 w2 p -> frame touched w2 w3 q -> frame touched w1 w3 (p ++ q).
Proof.
  intros (L1 & A1 & D1 & T1 & R1 & B1) (L2 & A2 & D2 & T2 & R2 & B2).
  assert (Ha : address (self w2) = address (self w1)) by apply D1.
  unfold frame, issued in *.
  split. { rewrite L2, L1, app_assoc. reflexivity. }
  split. { apply Forall_app. split; [exact A1|].
           rewrite Ha in A2. exact A2. }
  split. { eapply same_driver_trans; eauto. }
  split. { rewrite T2, T1, completed_writes_app. lia. }
  split. { intros m Hm. rewrite R2, R1; auto. }
  auto.
Qed.

Lemma run_ok_refl (touched : Z -> Prop) (w : World) : run_ok touched w w.
Proof. exists []. split; [apply frame_refl | constructor]. Qed.

Lemma run_ok_trans (touched : Z -> Prop) (w1 w2 w3 : World) :
  run_ok touched w1 w2 -> run_ok touched w2 w3 -> run_ok touched w1 w3.
Proof.
  intros (p & F1 & O1) (q & F2 & O2). exists (p ++ q).
  split; [eapply frame_trans; eauto | apply Forall_app; auto].
Qed.

Lemma run_ok_err (touched : Z -> Prop) (w1 w2 w3 : World) (e : exn) :
  run_ok touched w1 w2 -> run_err touched w2 e w3 -> run_err touched w1 e w3.
Proof.
  intros (p & F1 & O1) (He & Hb & q & t & F2 & O2 & Ht).
  split; [exact He|]. split.
  { intros Hnone. apply Hb. apply F1. exact Hnone. }
  exists (p ++ q), t. rewrite <- app_assoc.
  split; [eapply frame_trans; eauto|].
  split; [apply Forall_app; auto | exact Ht].
Qed.

Lemma runs_ret {A : Type} (touched : Z -> Prop) (P : A -> Prop) (a : A) :
  P a -> runs touched P (ret a).
Proof. intros H w. cbn. split; [exact H | apply run_ok_refl]. Qed.

Lemma runs_bind {A B : Type} (touched : Z -> Prop) (P : A -> Prop)
    (Q : B -> Prop) (c : M A) (k : A -> M B) :
  runs touched P c -> (forall a, P a -> runs touched Q (k a)) -> runs touched Q (bind c k).
Proof.
  intros Hc Hk w. unfold bind. specialize (Hc w).
  destruct (c w) as [a w1|e w1|]; [|exact Hc|exact Hc].
  destruct Hc as [Ha H1]. specialize (Hk a Ha w1).
  destruct (k a w1) as [b w2|e w2|]; [| |exact Hk].
  - destruct Hk as [Hb H2]. split; [exact Hb|].
    eapply run_ok_trans; eauto.
  - eapply run_ok_err; eauto.
Qed.

Lemma runs_weaken {A : Type} (touched : Z -> Prop) (P Q : A -> Prop) (c : M A) :
  runs touched P c -> (forall a, P a -> Q a) -> runs touched Q c.
Proof.
  intros Hc HPQ w. specialize (Hc w).
  destruct (c w); auto. destruct Hc. split; auto.
Qed.

Lemma runs_ext {A : Type} (touched : Z -> Prop) (P : A -> Prop) (c c' : M A) :
  (forall w, c w = c' w) -> runs touched P c' -> runs touched P c.
Proof. intros H Hc w. rewrite H. apply Hc. Qed.

(** ** Runs on every bus: the primitives *)

Lemma store_other (buf : list byte) : forall r memaddr m,
  m < memaddr \/ memaddr + Z.of_nat (List.length buf) <= m ->
  store r memaddr buf m = r m.
Proof.
  induction buf as [|b buf IH]; intros r memaddr m H; [reflexivity|].
  cbn [store]. rewrite IH by (cbn [List.length] in H; lia).
  destruct (Z.eqb_spec m memaddr); [cbn [List.length] in H; lia|].
  reflexivity.
Qed.

Lemma fetch_length (r : Z -> byte) : forall nbytes memaddr,
  List.length (fetch r memaddr nbytes) = nbytes.
Proof.
  induction nbytes as [|n IH]; intros memaddr; cbn; [|rewrite IH];
    reflexivity.
Qed.

Lemma answer_length (r : Z -> byte) (script : list byte) (memaddr : Z)
    (nbytes : nat) :
  List.length (fst (answer r script memaddr nbytes)) = nbytes.
Proof.
  unfold answer. destruct (memaddr =? 1);
    [destruct script, nbytes|]; cbn; rewrite ?fetch_length; reflexivity.
Qed.

Ltac one_txn :=
  unfold frame, issued, same_driver, bus; cbn;
  repeat split; auto; try lia; try discriminate;
  try (constructor; [reflexivity | constructor]).

Lemma runs_write (touched : Z -> Prop) (register : Z) (value : list byte) :
  (forall m, register <= m < register + Z.of_nat (List.length value) ->
             touched m) ->
  runs touched (fun _ => True) (write register value).
Proof.
  intros HS w. expose w.
  assert (Hstore : forall m, ~ touched m -> store r register value m = r m).
  { intros m Hm. apply store_other.
    destruct (Z_lt_dec m register); [left; assumption|].
    destruct (Z_le_dec (register + Z.of_nat (List.length value)) m);
      [right; assumption|].
    exfalso. apply Hm, HS. lia. }
  unfold write, bind, get_self, i2c_writeto_mem, writeto_mem, sleep_us,
    bus, set_bus, with_i2c.
  cbn [self i2c budget regs status log address stdout slept_us
       sig_count_max acq_config_reg ref_count_max threshold_bypass
       busy_counter].
  destruct b as [[|k]|]; cbn [spend].
  - (* the write fails *)
    split; [reflexivity|]. split; [discriminate|].
    exists [], (WriteTo a register value false).
    split; [|split; [constructor | reflexivity]]. one_txn.
  - split; [exact I|]. exists [WriteTo a register value true].
    split; [|constructor; [reflexivity | constructor]]. one_txn.
  - split; [exact I|]. exists [WriteTo a register value true].
    split; [|constructor; [reflexivity | constructor]]. one_txn.
Qed.

Lemma runs_read (touched : Z -> Prop) (register : Z) (nbytes : nat) :
  runs touched (fun val => List.length val = nbytes) (read register nbytes).
Proof.
  intros w. expose w. rewrite read_run.
  unfold after_read, readfrom_mem, bus, set_bus, with_i2c.
  cbn [self i2c budget regs status log address stdout slept_us
       sig_count_max acq_config_reg ref_count_max threshold_bypass
       busy_counter].
  pose proof (answer_length r script register nbytes) as Hlen.
  destruct (answer r script register nbytes) as [val script'].
  cbn [fst] in Hlen.
  destruct b as [[|k]|]; cbn [spend fst snd].
  - split; [reflexivity|]. split; [discriminate|].
    exists [], (ReadFrom a register nbytes None).
    split; [|split; [constructor | reflexivity]]. one_txn.
  - split; [exact Hlen|]. exists [ReadFrom a register nbytes (Some val)].
    split; [|constructor; [reflexivity | constructor]]. one_txn.
  - split; [exact Hlen|]. exists [ReadFrom a register nbytes (Some val)].
    split; [|constructor; [reflexivity | constructor]]. one_txn.
Qed.

Lemma runs_item (touched : Z -> Prop) (b : list byte) (i : nat) :
  (i < List.length b)%nat -> runs touched (fun v => 0 <= v < 256) (item b i).
Proof.
  intros Hi. unfold item.
  destruct (nth_error b i) as [x|] eqn:E.
  - apply runs_ret, byte_val_range.
  - apply nth_error_None in E. lia.
Qed.

Lemma runs_setitem0 (touched : Z -> Prop) (b : list byte) (v : Z) :
  b <> [] ->
  runs touched (fun b' => List.length b' = List.length b) (setitem0 b v).
Proof.
  intros Hb. destruct b as [|x rest]; [contradiction|].
  apply runs_ret. reflexivity.
Qed.

Lemma busy_flag_addr (a : Z) (t : txn) (f : Z) :
  busy_flag_of a t = Some f -> addr_of t = a /\ failed t = false.
Proof.
  destruct t as [|a' m n [[|b [|]]|]]; cbn; try discriminate.
  destruct (Z.eqb_spec a' a); cbn; [|discriminate]. auto.
Qed.

Lemma status_read_addr (a : Z) (t : txn) :
  status_read a t = true -> addr_of t = a.
Proof.
  destruct t as [|a' m n res]; cbn; [discriminate|].
  destruct (Z.eqb_spec a' a); cbn; [auto|discriminate].
Qed.

Lemma status_reads_no_write (a : Z) (p : list txn) :
  Forall (fun t => status_read a t = true) p -> completed_writes p = 0%nat.
Proof.
  induction 1 as [|t p Ht _ IH]; [reflexivity|].
  unfold completed_writes in *. cbn [filter].
  destruct t; [discriminate | exact IH].
Qed.

Lemma runs_wait_for_busy (touched : Z -> Prop) :
  runs touched (fun _ => True) wait_for_busy.
Proof.
  intros w.
  destruct (wait_loop_run (Z.to_nat 10000) 0 w)
    as (pre & t & w' & Hl & Hpre & Ht & _ & Hd & Hs & Hr & _ & Hb & Ha & Ho);
    [lia | lia |].
  fold wait_for_busy in Ho.
  assert (Hreads : Forall (fun x => status_read (address (self w)) x = true)
                          (pre ++ [t])).
  { apply Forall_app. split; [|constructor; [exact Ht | constructor]].
    eapply Forall_impl; [|exact Hpre].
    intros x Hx. eapply busy_flag_status_read, Hx. }
  assert (Hframe : frame touched w w' (pre ++ [t])).
  { split; [exact Hl|]. split.
    { eapply Forall_impl; [|exact Hreads].
      intros x. apply status_read_addr. }
    split; [exact Hd|]. split.
    { rewrite (status_reads_no_write _ _ Hreads). lia. }
    split; [|exact Hb]. intros m _. rewrite Hr. reflexivity. }
  assert (Hok : Forall (fun x => failed x = false) pre).
  { eapply Forall_impl; [|exact Hpre].
    intros x Hx. eapply busy_flag_addr, Hx. }
  destruct Ho as [(F & E & _)|[(F & _ & E & _)|(F & E & _)]]; rewrite E.
  - split; [exact I|]. exists (pre ++ [t]). split; [exact Hframe|].
    apply Forall_app. split; [exact Hok|].
    constructor; [eapply busy_flag_addr, F | constructor].
  - split; [exact I|]. exists (pre ++ [t]). split; [exact Hframe|].
    apply Forall_app. split; [exact Hok|].
    constructor; [eapply busy_flag_addr, F | constructor].
  - split; [reflexivity|]. split.
    { apply Forall_app in Ha. destruct Ha as [_ Ha].
      inversion Ha as [|x l Hx _]; subst.
      destruct t as [|a m n [val|]]; cbn in F, Ht; try discriminate.
      exact Hx. }
    exists pre, t. auto.
Qed.

Lemma runs_take_range (touched : Z -> Prop) :
  touched 0x00 -> runs touched (fun _ => True) take_range.
Proof.
  intros H0. apply (runs_ext _ _ _ (write 0x00 [Init.Byte.x01]));
    [exact take_range_write|].
  apply runs_write. cbn [List.length]. intros m Hm.
  replace m with 0 by lia. exact H0.
Qed.

Lemma runs_get_busy_flag (touched : Z -> Prop) :
  runs touched (fun f => f = 0 \/ f = 1) get_busy_flag.
Proof.
  unfold get_busy_flag.
  eapply runs_bind; [apply runs_read|]. intros busy_flag Hlen. cbv beta in Hlen.
  eapply runs_bind; [apply runs_item; lia|]. intros f _.
  apply runs_ret, land1_cases.
Qed.

(** Two bytes make a 16-bit word, the first one the high byte. *)
Lemma word_of_bytes (hi lo : Z) :
  0 <= hi < 256 -> 0 <= lo < 256 ->
  Z.lor (Z.shiftl hi 8) lo = 256 * hi + lo /\
  0 <= Z.lor (Z.shiftl hi 8) lo < 65536.
Proof.
  intros Hhi Hlo.
  assert (L : Z.land (Z.shiftl hi 8) lo = 0).
  { apply Z.bits_inj'. intros n Hn.
    rewrite Z.land_spec, Z.bits_0.
    destruct (Z_lt_dec n 8) as [Hlt|Hge].
    - rewrite Z.shiftl_spec_low by exact Hlt. reflexivity.
    - replace (Z.testbit lo n) with false; [apply andb_false_r|].
      symmetry. destruct (Z.eq_dec lo 0) as [->|Hne];
        [apply Z.bits_0|].
      apply Z.bits_above_log2; [lia|].
      assert (Z.log2 lo < 8).
      { apply Z.log2_lt_pow2; [lia | change (2 ^ 8) with 256; lia]. }
      lia. }
  assert (E : Z.lor (Z.shiftl hi 8) lo = 256 * hi + lo).
  { pose proof (Z.add_lor_land (Z.shiftl hi 8) lo) as H.
    rewrite L in H. rewrite Z.shiftl_mul_pow2 in * by lia.
    change (2 ^ 8) with 256 in *. lia. }
  split; [exact E | lia].
Qed.

Lemma runs_read_distance (touched : Z -> Prop) :
  runs touched (fun d => 0 <= d < 65536) read_distance.
Proof.
  unfold read_distance.
  eapply runs_bind; [apply runs_read|]. intros databytes Hlen. cbv beta in Hlen.
  eapply runs_bind; [apply runs_item; lia|]. intros d0 H0. cbv beta in H0.
  eapply runs_bind; [apply runs_item; lia|]. intros d1 H1. cbv beta in H1.
  apply runs_ret. apply word_of_bytes; assumption.
Qed.

Lemma runs_range (touched : Z -> Prop) :
  touched 0x00 -> runs touched (fun d => 0 <= d < 65536) range.
Proof.
  intros H0. unfold range.
  eapply runs_bind; [apply runs_wait_for_busy|]. intros _ _.
  eapply runs_bind; [apply runs_take_range, H0|]. intros _ _.
  eapply runs_bind; [apply runs_wait_for_busy|]. intros _ _.
  apply runs_read_distance.
Qed.

Lemma runs_range_fast (touched : Z -> Prop) :
  touched 0x00 -> runs touched (fun d => 0 <= d < 65536) range_fast.
Proof.
  intros H0. unfold range_fast.
  eapply runs_bind; [apply runs_wait_for_busy|]. intros _ _.
  eapply runs_bind; [apply runs_take_range, H0|]. intros _ _.
  apply runs_read_distance.
Qed.

Lemma runs_reset_reference_filter (touched : Z -> Prop) :
  touched 0x00 -> touched 0x04 -> touched 0x12 ->
  runs touched (fun _ => True) reset_reference_filter.
Proof.
  intros H0 H4 H12. unfold reset_reference_filter.
  assert (W4 : forall b : list byte, List.length b = 1%nat ->
                 runs touched (fun _ => True) (write 0x04 b)).
  { intros b Hb. apply runs_write. rewrite Hb. intros m Hm.
    replace m with 0x04 by lia. exact H4. }
  assert (W12 : forall b : list byte, List.length b = 1%nat ->
                  runs touched (fun _ => True) (write 0x12 b)).
  { intros b Hb. apply runs_write. rewrite Hb. intros m Hm.
    replace m with 0x12 by lia. exact H12. }
  assert (Set0 : forall (b : list byte) v, List.length b = 1%nat ->
                   runs touched (fun b' => List.length b' = 1%nat) (setitem0 b v)).
  { intros b v Hb. eapply runs_weaken; [apply runs_setitem0|].
    - destruct b; [discriminate|]. discriminate.
    - intros b' Hb'. congruence. }
  eapply runs_bind; [apply runs_read|]. intros d1 L1. cbv beta in L1.
  eapply runs_bind; [apply runs_item; lia|]. intros acq _.
  eapply runs_bind; [apply Set0, L1|]. intros d2 L2. cbv beta in L2.
  eapply runs_bind; [apply W12, L2|]. intros _ _.
  eapply runs_bind; [apply runs_read|]. intros d3 L3. cbv beta in L3.
  eapply runs_bind; [apply runs_item; lia|]. intros rcm _.
  eapply runs_bind; [apply Set0, L3|]. intros d4 L4. cbv beta in L4.
  eapply runs_bind; [apply W12, L4|]. intros _ _.
  eapply runs_bind; [apply runs_range, H0|]. intros _ _.
  eapply runs_bind; [apply Set0, L4|]. intros d5 L5. cbv beta in L5.
  eapply runs_bind; [apply W12, L5|]. intros _ _.
  eapply runs_bind; [apply Set0, L5|]. intros d6 L6. cbv beta in L6.
  apply W4, L6.
Qed.

(** ** What every run of the driver keeps *)

Lemma runs_fail_stop {A : Type} (touched : Z -> Prop) (P : A -> Prop) (c : M A) :
  runs touched P c -> fail_stop c.
Proof.
  intros Hc w. specialize (Hc w).
  destruct (c w) as [a w'|e w'|]; [| |contradiction].
  - destruct Hc as (_ & p & F & Hok). exists p, w'.
    split; [apply F|]. left. exists a. auto.
  - destruct Hc as (-> & Hb & p & t & F & Hok & Ht). exists (p ++ [t]), w'.
    split; [apply F|]. right. split; [reflexivity|]. split; [exact Hb|].
    exists p, t. auto.
Qed.

Lemma runs_settles {A : Type} (touched : Z -> Prop) (P : A -> Prop) (c : M A) :
  runs touched P c -> settles c.
Proof.
  intros Hc w. specialize (Hc w).
  destruct (c w) as [a w'|e w'|]; [| |contradiction].
  - destruct Hc as (_ & p & F & _). exists p, w'.
    split; [reflexivity|]. split; apply F.
  - destruct Hc as (_ & _ & p & t & F & _). exists (p ++ [t]), w'.
    split; [reflexivity|]. split; apply F.
Qed.

Lemma runs_confined {A : Type} (touched : Z -> Prop) (P : A -> Prop) (c : M A) :
  runs touched P c -> confined touched c.
Proof.
  intros Hc w. specialize (Hc w).
  destruct (c w) as [a w'|e w'|]; [| |contradiction].
  - destruct Hc as (_ & p & F & _). exists p, w'.
    split; [reflexivity|]. repeat split; apply F.
  - destruct Hc as (_ & _ & p & t & F & _). exists (p ++ [t]), w'.
    split; [reflexivity|]. repeat split; apply F.
Qed.

Lemma runs_value {A : Type} (touched : Z -> Prop) (P : A -> Prop) (c : M A) :
  runs touched P c -> forall w a w', c w = Ok a w' -> P a.
Proof.
  intros Hc w a w' E. specialize (Hc w). rewrite E in Hc. apply Hc.
Qed.

(** A run given by its last transaction: the form in which the
    straight-line operations are checked case by case. *)
Lemma fail_stop_last {A : Type} (c : M A) :
  (forall w, exists w' p,
     final (c w) = Some w' /\ issued w w' p /\
     ((exists a, c w = Ok a w' /\ Forall (fun t => failed t = false) p) \/
      (c w = Raise OSError w' /\ budget (bus w) <> None /\ p <> [] /\
       Forall (fun t => failed t = false) (removelast p) /\
       failed (last p (ReadFrom 0 0 0 None)) = true))) ->
  fail_stop c.
Proof.
  intros H w. destruct (H w) as (w' & p & _ & Hl & Hcase). exists p, w'.
  split; [exact Hl|]. destruct Hcase as [Hok|(E & Hb & Hp & Hpre & Ht)];
    [left; exact Hok|].
  right. split; [exact E|]. split; [exact Hb|].
  exists (removelast p), (last p (ReadFrom 0 0 0 None)).
  split; [apply app_removelast_last, Hp|]. auto.
Qed.

Ltac straight_line :=
  do 2 eexists;
  (split; [run; reflexivity|]);
  (split; [unfold issued; run; rewrite <- ?app_assoc; cbn [app];
           reflexivity|]).

Ltac straight_line_ok :=
  straight_line;
  left; eexists; (split; [run; reflexivity|]); repeat constructor.

Ltac straight_line_fails :=
  straight_line;
  right; (split; [run; reflexivity|]);
  (split; [discriminate|]); (split; [discriminate|]);
  split; [cbn [removelast]; repeat constructor | reflexivity].

Lemma change_i2c_address_fail_stop (new : Z) (d : bool) :
  fail_stop (change_i2c_address new d).
Proof.
  apply fail_stop_last. intros w. expose w.
  destruct d; budget_cases b;
    first [straight_line_ok | straight_line_fails].
Qed.

Lemma configure_fail_stop (mode : Z) :
  0 <= mode <= 6 -> fail_stop (configure mode).
Proof.
  intros H. apply fail_stop_last. intros w. expose w.
  destruct b as [[|[|[|[|k]]]]|]; each_mode H;
    first [straight_line_ok | straight_line_fails].
Qed.

Ltac straight_line_settles :=
  straight_line;
  unfold completed_writes; cbn [filter List.length slept_us]; lia.

Lemma change_i2c_address_settles (new : Z) (d : bool) :
  settles (change_i2c_address new d).
Proof.
  intros w. expose w. destruct d; budget_cases b; straight_line_settles.
Qed.

Lemma configure_settles (mode : Z) : settles (configure mode).
Proof.
  intros w. destruct (Z_le_dec 0 mode) as [H0|H0];
    [destruct (Z_le_dec mode 6) as [H6|H6]|].
  - assert (H : 0 <= mode <= 6) by lia. expose w.
    destruct b as [[|[|[|[|k]]]]|]; each_mode H; straight_line_settles.
  - exists [], w. unfold configure, configuration, bind at 1 2, subscript.
    rewrite configurations_unknown by lia.
    unfold issued. rewrite app_nil_r. cbn. repeat split. lia.
  - exists [], w. unfold configure, configuration, bind at 1 2, subscript.
    rewrite configurations_unknown by lia.
    unfold issued. rewrite app_nil_r. cbn. repeat split. lia.
Qed.

(** X1: no operation of the driver retries or recovers.  For every
    behaviour of the bus, [wait_for_busy], [range], [range_fast],
    [reset_reference_filter], [change_i2c_address] and, for the profile ids
    0..6, [configure] either return with every transaction they issued
    succeeded, or raise [OSError] with the failed transaction as the last
    one they issued; on a bus that never fails they return. *)
Theorem driver_fail_stop :
  fail_stop wait_for_busy /\ fail_stop range /\ fail_stop range_fast /\
  fail_stop reset_reference_filter /\
  (forall new d, fail_stop (change_i2c_address new d)) /\
  (forall mode, 0 <= mode <= 6 -> fail_stop (configure mode)).
Proof.
  split; [exact (runs_fail_stop _ _ _ (runs_wait_for_busy (fun _ => True)))|].
  split; [exact (runs_fail_stop _ _ _ (runs_range (fun _ => True) I))|].
  split; [exact (runs_fail_stop _ _ _ (runs_range_fast (fun _ => True) I))|].
  split.
  { exact (runs_fail_stop _ _ _
             (runs_reset_reference_filter (fun _ => True) I I I)). }
  split; [exact change_i2c_address_fail_stop | exact configure_fail_stop].
Qed.

(** X2: the settle delay belongs to the write primitive.  For every
    behaviour of the bus, the time slept during [write], [read],
    [wait_for_busy], [range], [range_fast], [reset_reference_filter],
    [change_i2c_address] and [configure] is ten microseconds for each
    write that succeeded: nothing for a read, nothing for a write that
    failed. *)
Theorem driver_settle_delay :
  (forall register value, settles (write register value)) /\
  (forall register nbytes, settles (read register nbytes)) /\
  settles wait_for_busy /\ settles range /\ settles range_fast /\
  settles reset_reference_filter /\
  (forall new d, settles (change_i2c_address new d)) /\
  (forall mode, settles (configure mode)).
Proof.
  split.
  { intros register value.
    apply (runs_settles (fun _ => True) (fun _ => True)).
    apply runs_write. auto. }
  split.
  { intros register nbytes.
    exact (runs_settles _ _ _ (runs_read (fun _ => True) register nbytes)). }
  split; [exact (runs_settles _ _ _ (runs_wait_for_busy (fun _ => True)))|].
  split; [exact (runs_settles _ _ _ (runs_range (fun _ => True) I))|].
  split; [exact (runs_settles _ _ _ (runs_range_fast (fun _ => True) I))|].
  split.
  { exact (runs_settles _ _ _
             (runs_reset_reference_filter (fun _ => True) I I I)). }
  split; [exact change_i2c_address_settles | exact configure_settles].
Qed.

(** X3: what ranging leaves alone.  For every behaviour of the bus,
    [wait_for_busy] changes no register, [range] and [range_fast] change
    no register but the trigger register 0x00, and
    [reset_reference_filter] none but 0x00, 0x04 and 0x12; none of them
    changes an attribute of the driver, and all their transactions go to
    the address of the driver. *)
Theorem ranging_confined :
  confined (fun _ => False) wait_for_busy /\
  confined (fun m => m = 0x00) range /\
  confined (fun m => m = 0x00) range_fast /\
  confined (fun m => m = 0x00 \/ m = 0x04 \/ m = 0x12)
           reset_reference_filter.
Proof.
  split; [exact (runs_confined _ _ _ (runs_wait_for_busy _))|].
  split; [exact (runs_confined _ _ _ (runs_range _ eq_refl))|].
  split; [exact (runs_confined _ _ _ (runs_range_fast _ eq_refl))|].
  apply (runs_confined _ (fun _ => True)).
  apply runs_reset_reference_filter; auto.
Qed.

(** X4: a distance is a 16-bit unsigned number: whatever the bus returns,
    a value returned by [read_distance], [range] or [range_fast] is
    between 0 and 65535. *)
Theorem distance_is_16_bit (w w' : World) (d : Z) :
  read_distance w = Ok d w' \/ range w = Ok d w' \/ range_fast w = Ok d w' ->
  0 <= d < 65536.
Proof.
  intros [E|[E|E]].
  - exact (runs_value _ _ _ (runs_read_distance (fun _ => True)) _ _ _ E).
  - exact (runs_value _ _ _ (runs_range (fun _ => True) I) _ _ _ E).
  - exact (runs_value _ _ _ (runs_range_fast (fun _ => True) I) _ _ _ E).
Qed.

(** X5: the busy flag is one bit: whatever the status register holds, a
    value returned by [get_busy_flag] is 0 or 1, and it is 1 exactly
    when the byte read has bit 0 set. *)
Theorem get_busy_flag_is_bit_0 (w w' : World) (f : Z) :
  get_busy_flag w = Ok f w' ->
  (f = 0 \/ f = 1) /\
  exists b,
    issued w w' [ReadFrom (address (self w)) 0x01 1 (Some [b])] /\
    (f = 1 <-> Z.testbit (byte_val b) 0 = true).
Proof.
  intros E. split.
  { exact (runs_value _ _ _ (runs_get_busy_flag (fun _ => True)) _ _ _ E). }
  rewrite get_busy_flag_run in E.
  destruct (after_status_read w) as (_ & _ & _ & _ & Hl & _).
  destruct (spend (budget (bus w))); [|discriminate].
  injection E as <- <-. exists (next_status (bus w)).
  split; [exact Hl|].
  change 1 with (Z.ones 1) at 1. rewrite Z.land_ones by lia.
  rewrite Z.bit0_odd, Zodd_mod, Z.eqb_eq.
  change (2 ^ 1) with 2. reflexivity.
Qed.

Lemma driver_fail_stop_witness : fail_stop (configure 3).
Proof.
  apply (proj2 (proj2 (proj2 (proj2 (proj2 driver_fail_stop))))). lia.
Defined.

Lemma distance_is_16_bit_witness :
  exists w', range (fresh ranging_device) = Ok 300 w' /\ 0 <= 300 < 65536.
Proof.
  destruct (range (fresh ranging_device)) as [d w'|e w'|] eqn:E;
    [|vm_compute in E; discriminate|vm_compute in E; discriminate].
  assert (Hd : d = 300) by (vm_compute in E; congruence).
  subst d. exists w'. split; [reflexivity|].
  apply (distance_is_16_bit (fresh ranging_device) w' 300).
  right. left. exact E.
Defined.

Lemma get_busy_flag_is_bit_0_witness :
  exists w',
    get_busy_flag (fresh (blank [Init.Byte.x03] None)) = Ok 1 w' /\
    (1 = 0 \/ 1 = 1).
Proof.
  destruct (get_busy_flag (fresh (blank [Init.Byte.x03] None)))
    as [f w'|e w'|] eqn:E;
    [|vm_compute in E; discriminate|vm_compute in E; discriminate].
  assert (Hf : f = 1) by (vm_compute in E; congruence).
  subst f. exists w'. split; [reflexivity|].
  apply (get_busy_flag_is_bit_0 _ _ _ E).
Defined.

(** ** The polling loop stops at the first idle answer *)

Lemma wait_loop_first_idle : forall before fuel c w b rest,
  budget (bus w) = None ->
  status (bus w) = before ++ b :: rest ->
  Forall busy before -> idle b ->
  (List.length before < fuel)%nat ->
  c + Z.of_nat (List.length before) <= 9999 ->
  exists w',
    wait_loop fuel c w = Ok tt w' /\
    issued w w' (status_reads (address (self w)) (before ++ [b])) /\
    status (bus w') = rest /\ stdout w' = stdout w /\
    budget (bus w') = None /\ regs (bus w') = regs (bus w) /\
    same_driver w w'.
Proof.
  induction before as [|x before IH];
    intros fuel c w b rest Hb Hs Hbusy Hidle Hfuel Hc;
    (destruct fuel as [|fuel]; [cbn in Hfuel; lia|]);
    cbn [wait_loop]; unfold bind; rewrite get_busy_flag_run, Hb;
    cbn [spend];
    destruct (after_status_read w) as (Hd & Ho & _ & Hr & Hl & Hst & Hb' & _);
    rewrite Hb in Hl, Hst; cbn [spend] in Hl, Hst;
    unfold next_status in *; rewrite Hs in *; cbn [app tl] in *.
  - unfold idle in Hidle. rewrite Hidle. change (0 =? 1) with false.
    cbv iota. exists (after_read w 1 1). unfold ret.
    repeat split; auto; apply Hd.
  - inversion Hbusy as [|y l Hx Hrest]; subst.
    unfold busy in Hx. rewrite Hx. change (1 =? 1) with true. cbv iota.
    cbn [List.length] in Hc, Hfuel.
    destruct (Z.gtb_spec (c + 1) 9999) as [Hcap|_]; [lia|].
    destruct (IH fuel (c + 1) (after_read w 1 1) b rest)
      as (w' & E & Hl' & Hst' & Ho' & Hb'' & Hr' & Hd');
      [auto | exact Hst | exact Hrest | exact Hidle | lia | lia |].
    assert (Ha : address (self (after_read w 1 1)) = address (self w))
      by apply Hd.
    exists w'. rewrite E. split; [reflexivity|].
    split.
    { unfold issued in *. rewrite Hl', Hl, Ha. cbn [status_reads map app].
      rewrite <- app_assoc. reflexivity. }
    split; [exact Hst'|]. split; [congruence|]. split; [exact Hb''|].
    split; [congruence|]. exact (same_driver_trans _ _ _ Hd Hd').
Qed.

(** X6: on a bus that never fails, when the coming status answers are [k]
    busy ones followed by an idle one, with [k] below 10000,
    [wait_for_busy] returns after exactly those [k + 1] reads of the status
    register, each answer logged in turn, prints nothing and leaves the
    rest of the answers for the next poll. *)
Theorem wait_for_busy_stops_at_first_idle (w : World) (before : list byte)
    (b : byte) (rest : list byte) :
  budget (bus w) = None ->
  status (bus w) = before ++ b :: rest ->
  Forall busy before -> idle b ->
  Z.of_nat (List.length before) < 10000 ->
  exists w',
    wait_for_busy w = Ok tt w' /\
    issued w w' (status_reads (address (self w)) (before ++ [b])) /\
    status (bus w') = rest /\ stdout w' = stdout w.
Proof.
  intros Hb Hs Hbusy Hidle Hlen.
  destruct (wait_loop_first_idle before (Z.to_nat 10000) 0 w b rest)
    as (w' & E & Hl & Hst & Ho & _); auto; try lia.
  exists w'. auto.
Qed.

(** Two busy answers, then an idle one. *)
Lemma wait_for_busy_stops_at_first_idle_witness :
  let w := fresh (blank [Init.Byte.x01; Init.Byte.x03; Init.Byte.x02;
                         Init.Byte.x01] None) in
  exists w',
    wait_for_busy w = Ok tt w' /\
    issued w w' (status_reads 0x62 [Init.Byte.x01; Init.Byte.x03;
                                    Init.Byte.x02]) /\
    status (bus w') = [Init.Byte.x01] /\ stdout w' = [].
Proof.
  intros w.
  apply (wait_for_busy_stops_at_first_idle w
           [Init.Byte.x01; Init.Byte.x03] Init.Byte.x02 [Init.Byte.x01]).
  - reflexivity.
  - reflexivity.
  - repeat constructor.
  - reflexivity.
  - cbn. lia.
Defined.

(** ** [range_fast] against [range], whatever the busy flag does *)

(** X7: on a bus that never fails, for every register state and every
    sequence of status answers, [range_fast] returns after one poll until
    idle, the trigger write and the distance read; [range] from the same
    world issues the same poll and trigger, then a second poll, then the
    same distance read; [range_fast] never reads the status register after
    the trigger, and both return the word of the distance registers. *)
Theorem range_fast_sequence (w : World) :
  budget (bus w) = None ->
  exists p1 p2 w1 w2,
    range_fast w = Ok (distance (regs (bus w))) w2 /\
    range w = Ok (distance (regs (bus w))) w1 /\
    poll_until_idle (address (self w)) p1 /\
    poll_until_idle (address (self w)) p2 /\
    issued w w2
      (p1 ++ [WriteTo (address (self w)) 0x00 [Init.Byte.x01] true] ++
       [ReadFrom (address (self w)) 0x0f 2
          (Some [regs (bus w) 0x0f; regs (bus w) 0x10])]) /\
    issued w w1
      (p1 ++ [WriteTo (address (self w)) 0x00 [Init.Byte.x01] true] ++ p2 ++
       [ReadFrom (address (self w)) 0x0f 2
          (Some [regs (bus w) 0x0f; regs (bus w) 0x10])]).
Proof.
  intros Hb.
  destruct (wait_for_busy_reliable w Hb) as (p1 & w1 & E1 & P1 & S1).
  destruct (write_reliable 0x00 [Init.Byte.x01] w1) as (w2 & E2 & S2);
    [apply S1|].
  destruct (wait_for_busy_reliable w2) as (p2 & w3 & E3 & P2 & S3);
    [apply S2|].
  destruct (read_distance_reliable w3) as (w4 & E4 & S4); [apply S3|].
  destruct (read_distance_reliable w2) as (w4' & E4' & S4'); [apply S2|].
  assert (A1 : address (self w1) = address (self w)) by apply S1.
  assert (A2 : address (self w2) = address (self w)).
  { rewrite <- A1. apply S2. }
  assert (A3 : address (self w3) = address (self w)).
  { rewrite <- A2. apply S3. }
  assert (R1 : regs (bus w1) = regs (bus w)) by apply S1.
  assert (R2 : regs (bus w2) = store (regs (bus w)) 0 [Init.Byte.x01]).
  { destruct S2 as (_ & _ & -> & _). rewrite R1. reflexivity. }
  assert (R3 : regs (bus w3) = store (regs (bus w)) 0 [Init.Byte.x01]).
  { destruct S3 as (_ & _ & -> & _). exact R2. }
  rewrite A1 in S2. rewrite A2 in P2, S4'. rewrite A3 in S4.
  rewrite R3 in E4, S4. rewrite R2 in E4', S4'.
  exists p1, p2, w4, w4'.
  split.
  { unfold range_fast, bind. rewrite E1, take_range_write, E2, E4'.
    reflexivity. }
  split.
  { unfold range, bind. rewrite E1, take_range_write, E2, E3, E4.
    reflexivity. }
  split; [exact P1|]. split; [exact P2|].
  split.
  { apply (step_trans _ _ _ _ _ _ _ S1 (step_trans _ _ _ _ _ _ _ S2 S4')). }
  apply (step_trans _ _ _ _ _ _ _ S1
           (step_trans _ _ _ _ _ _ _ S2
              (step_trans _ _ _ _ _ _ _ S3 S4))).
Qed.

(** A device that reports busy twice before each idle answer. *)
Lemma range_fast_sequence_witness :
  let w := fresh (mkI2C (regs ranging_device)
                        [Init.Byte.x01; Init.Byte.x01; Init.Byte.x00;
                         Init.Byte.x01; Init.Byte.x00] None []) in
  budget (bus w) = None /\
  exists w1 w2, range_fast w = Ok 300 w2 /\ range w = Ok 300 w1.
Proof.
  intros w.
  assert (H : budget (bus w) = None) by reflexivity.
  split; [exact H|].
  destruct (range_fast_sequence w H)
    as (p1 & p2 & w1 & w2 & E2 & E1 & _).
  exists w1, w2. split; [exact E2 | exact E1].
Defined.

(** ** [read_distance] *)

(** X8: when it returns, [read_distance] has issued one read of two bytes
    at register 0x0f at the address of the driver and nothing else, and the
    value is big-endian: 256 times the first byte plus the second. *)
Theorem read_distance_big_endian (w w' : World) (d : Z) :
  read_distance w = Ok d w' ->
  exists hi lo,
    issued w w' [ReadFrom (address (self w)) 0x0f 2 (Some [hi; lo])] /\
    d = 256 * byte_val hi + byte_val lo.
Proof.
  expose w. unfold read_distance, bind. rewrite read_run.
  unfold after_read, readfrom_mem, answer, bus, set_bus, with_i2c, issued.
  cbn [self i2c budget regs status log address stdout slept_us
       sig_count_max acq_config_reg ref_count_max threshold_bypass
       busy_counter Z.eqb Pos.eqb fetch].
  destruct (spend b) as [b'|]; cbn [fst snd item nth_error ret];
    [|discriminate].
  intros E. injection E as <- <-.
  exists (r 15), (r (15 + 1)). split; [reflexivity|].
  apply word_of_bytes; apply byte_val_range.
Qed.

Lemma read_distance_big_endian_witness :
  exists w' hi lo,
    read_distance (fresh ranging_device) = Ok 300 w' /\
    issued (fresh ranging_device) w' [ReadFrom 0x62 0x0f 2 (Some [hi; lo])] /\
    300 = 256 * byte_val hi + byte_val lo.
Proof.
  destruct (read_distance (fresh ranging_device)) as [d w'|e w'|] eqn:E;
    [|vm_compute in E; discriminate|vm_compute in E; discriminate].
  assert (Hd : d = 300) by (vm_compute in E; congruence).
  subst d.
  destruct (read_distance_big_endian _ _ _ E) as (hi & lo & Hl & Hv).
  exists w', hi, lo. auto.
Defined.

(** ** The constructor *)

(** X9: [V3HP(mode, i2c, address)] with a profile id in 0..6, on a bus
    whose coming four transactions succeed: the object is built with the
    given address and the profile in its four mirror attributes; exactly
    the four profile writes were issued, at that address; the device
    registers 0x02, 0x04, 0x12 and 0x1c hold the mirror values; and the
    constructor slept 120 microseconds: the 80 of the settling delay and
    10 after each write. *)
Theorem init_known_mode (mode : Z) (dev : I2C) (addr : Z) :
  0 <= mode <= 6 -> enough 4 dev ->
  exists s a r t w',
    documented_profile mode = Some (s, a, r, t) /\
    init mode dev addr = Ok tt w' /\
    address (self w') = addr /\
    sig_count_max (self w') = s /\ acq_config_reg (self w') = a /\
    ref_count_max (self w') = r /\ threshold_bypass (self w') = t /\
    log (bus w') = log dev ++
      [WriteTo addr 0x02 [byte_low s] true;
       WriteTo addr 0x04 [byte_low a] true;
       WriteTo addr 0x12 [byte_low r] true;
       WriteTo addr 0x1c [byte_low t] true] /\
    byte_val (regs (bus w') 0x02) = s /\ byte_val (regs (bus w') 0x04) = a /\
    byte_val (regs (bus w') 0x12) = r /\ byte_val (regs (bus w') 0x1c) = t /\
    slept_us w' = 120 /\ stdout w' = [].
Proof.
  intros H Hb. destruct dev as [r script b l]. unfold enough in Hb.
  cbn in Hb.
  assert (Hk : b = None \/ exists k, b = Some (S (S (S (S k))))).
  { destruct b as [k|]; [right|left; reflexivity].
    do 4 (destruct k as [|k]; [lia|]). exists k. reflexivity. }
  destruct Hk as [->|[k ->]]; each_mode H;
    do 5 eexists;
    (split; [reflexivity|]);
    (split; [unfold init; run; reflexivity|]);
    run;
    do 5 (split; [reflexivity|]);
    (split; [rewrite <- !app_assoc; reflexivity|]);
    repeat split; vm_compute; reflexivity.
Qed.

Lemma init_known_mode_witness :
  0 <= 5 <= 6 /\ enough 4 (blank [] None) /\
  exists w',
    init 5 (blank [] None) 0x62 = Ok tt w' /\
    threshold_bypass (self w') = 0xb0 /\ slept_us w' = 120.
Proof.
  assert (H1 : 0 <= 5 <= 6) by lia.
  assert (H2 : enough 4 (blank [] None)) by exact I.
  split; [exact H1|]. split; [exact H2|].
  destruct (init_known_mode 5 (blank [] None) 0x62 H1 H2)
    as (s & a & r & t & w' & Hdoc & Hrun & _ & _ & _ & _ & Ht & _ & _ & _
        & _ & _ & Hs & _).
  injection Hdoc as <- <- <- <-.
  exists w'. auto.
Defined.

(** X10: [V3HP(mode, i2c, address)] with a mode outside 0..6 raises
    [KeyError] after the settling delay of the constructor and before any
    bus transaction: the bus is as it was given. *)
Theorem init_unknown_mode (mode : Z) (dev : I2C) (addr : Z) :
  ~ 0 <= mode <= 6 ->
  exists w',
    init mode dev addr = Raise KeyError w' /\
    bus w' = dev /\ slept_us w' = 80 /\ stdout w' = [].
Proof.
  intros H. unfold init, bind at 1, sleep_us.
  unfold configure, configuration, bind at 1 2, subscript.
  rewrite (configurations_unknown mode H).
  eexists. split; [reflexivity|]. repeat split.
Qed.

Lemma init_unknown_mode_witness :
  ~ 0 <= 7 <= 6 /\
  exists w',
    init 7 (blank [] None) 0x62 = Raise KeyError w' /\
    bus w' = blank [] None /\ slept_us w' = 80 /\ stdout w' = [].
Proof.
  assert (H : ~ 0 <= 7 <= 6) by lia.
  split; [exact H|]. exact (init_unknown_mode 7 (blank [] None) 0x62 H).
Defined.

(** ** [configure]: the device follows the mirror *)

Lemma configure_reliable (mode : Z) (w : World) :
  0 <= mode <= 6 -> budget (bus w) = None ->
  exists s a r t w',
    documented_profile mode = Some (s, a, r, t) /\
    configure mode w = Ok tt w' /\
    budget (bus w') = None /\
    sig_count_max (self w') = s /\ acq_config_reg (self w') = a /\
    ref_count_max (self w') = r /\ threshold_bypass (self w') = t /\
    address (self w') = address (self w) /\
    busy_counter (self w') = busy_counter (self w) /\
    regs (bus w') =
      store (store (store (store (regs (bus w)) 0x02 [byte_low s])
                          0x04 [byte_low a]) 0x12 [byte_low r])
            0x1c [byte_low t].
Proof.
  intros H. expose w. unfold bus at 1. cbn [self i2c budget]. intros ->.
  each_mode H;
    do 5 eexists;
    (split; [reflexivity|]);
    (split; [run; reflexivity|]);
    repeat split.
Qed.

(** X11: after a [configure] that succeeded, for a profile id in 0..6, the
    device and the mirror agree: the registers 0x02, 0x04, 0x12 and 0x1c
    hold the four mirror attributes, which are the profile's; every other
    register, the address and the busy counter of the driver are what they
    were. *)
Theorem configure_device_matches_mirror (mode : Z) (w : World) :
  0 <= mode <= 6 -> enough 4 (bus w) ->
  exists w',
    configure mode w = Ok tt w' /\
    byte_val (regs (bus w') 0x02) = sig_count_max (self w') /\
    byte_val (regs (bus w') 0x04) = acq_config_reg (self w') /\
    byte_val (regs (bus w') 0x12) = ref_count_max (self w') /\
    byte_val (regs (bus w') 0x1c) = threshold_bypass (self w') /\
    (forall m, m <> 0x02 -> m <> 0x04 -> m <> 0x12 -> m <> 0x1c ->
               regs (bus w') m = regs (bus w) m) /\
    address (self w') = address (self w) /\
    busy_counter (self w') = busy_counter (self w).
Proof.
  intros H Hb. expose w. unfold enough in Hb. cbn in Hb.
  assert (Hk : b = None \/ exists k, b = Some (S (S (S (S k))))).
  { destruct b as [k|]; [right|left; reflexivity].
    do 4 (destruct k as [|k]; [lia|]). exists k. reflexivity. }
  destruct Hk as [->|[k ->]]; each_mode H;
    eexists; (split; [run; reflexivity|]); run;
    (split; [vm_compute; reflexivity|]);
    (split; [vm_compute; reflexivity|]);
    (split; [vm_compute; reflexivity|]);
    (split; [vm_compute; reflexivity|]);
    (split; [|split; reflexivity]);
    intros m H2 H4 H12 H1c;
    rewrite !store_other by (cbn [List.length]; lia); reflexivity.
Qed.

Lemma configure_device_matches_mirror_witness :
  0 <= 3 <= 6 /\ enough 4 (bus (fresh (blank [] None))) /\
  exists w',
    configure 3 (fresh (blank [] None)) = Ok tt w' /\
    byte_val (regs (bus w') 0x02) = sig_count_max (self w').
Proof.
  assert (H1 : 0 <= 3 <= 6) by lia.
  assert (H2 : enough 4 (bus (fresh (blank [] None)))) by exact I.
  split; [exact H1|]. split; [exact H2|].
  destruct (configure_device_matches_mirror 3 _ H1 H2)
    as (w' & Hrun & Hs & _).
  exists w'. auto.
Defined.

(** X12: the last [configure] wins.  On a bus that never fails, for profile
    ids [m1] and [m2] in 0..6, [configure m1] followed by [configure m2]
    leaves the mirror attributes and every device register as
    [configure m2] alone does. *)
Theorem configure_last_wins (m1 m2 : Z) (w : World) :
  0 <= m1 <= 6 -> 0 <= m2 <= 6 -> budget (bus w) = None ->
  exists w12 w2,
    (configure m1 ;; configure m2) w = Ok tt w12 /\
    configure m2 w = Ok tt w2 /\
    sig_count_max (self w12) = sig_count_max (self w2) /\
    acq_config_reg (self w12) = acq_config_reg (self w2) /\
    ref_count_max (self w12) = ref_count_max (self w2) /\
    threshold_bypass (self w12) = threshold_bypass (self w2) /\
    forall m, regs (bus w12) m = regs (bus w2) m.
Proof.
  intros H1 H2 Hb.
  destruct (configure_reliable m1 w H1 Hb)
    as (s1 & a1 & r1 & t1 & w1 & _ & E1 & Hb1 & _ & _ & _ & _ & _ & _ & R1).
  destruct (configure_reliable m2 w1 H2 Hb1)
    as (s & a & r & t & w12 & D12 & E12 & _ & Hs & Ha & Hr & Ht & _ & _
        & R12).
  destruct (configure_reliable m2 w H2 Hb)
    as (s' & a' & r' & t' & w2 & D2 & E2 & _ & Hs' & Ha' & Hr' & Ht' & _ & _
        & R2).
  rewrite D12 in D2. injection D2 as <- <- <- <-.
  exists w12, w2. unfold bind. rewrite E1.
  split; [exact E12|]. split; [exact E2|].
  do 4 (split; [congruence|]).
  intros m. rewrite R12, R2, R1. cbn [store].
  destruct (m =? 28); [reflexivity|].
  destruct (m =? 18); [reflexivity|].
  destruct (m =? 4); [reflexivity|].
  destruct (m =? 2); reflexivity.
Qed.

Lemma configure_last_wins_witness :
  let w := fresh (blank [] None) in
  0 <= 1 <= 6 /\ 0 <= 5 <= 6 /\ budget (bus w) = None /\
  exists w12 w2,
    (configure 1 ;; configure 5) w = Ok tt w12 /\
    configure 5 w = Ok tt w2 /\
    forall m, regs (bus w12) m = regs (bus w2) m.
Proof.
  intros w.
  assert (H1 : 0 <= 1 <= 6) by lia.
  assert (H2 : 0 <= 5 <= 6) by lia.
  assert (H3 : budget (bus w) = None) by reflexivity.
  split; [exact H1|]. split; [exact H2|]. split; [exact H3|].
  destruct (configure_last_wins 1 5 w H1 H2 H3)
    as (w12 & w2 & E12 & E2 & _ & _ & _ & _ & R).
  exists w12, w2. auto.
Defined.

(** ** [change_i2c_address]: what it leaves in the device *)

Ltac lookup :=
  cbv -[byte_low byte_val Z.lor Z.shiftl Z.land]; try reflexivity.

(** X13: after a [change_i2c_address] that succeeded, for a 7-bit new
    address: the unit id of registers 0x16 and 0x17 is copied to 0x18 and
    0x19; register 0x1a holds [new << 1] and register 0x1b, which the
    two-byte write to 0x1a also covers, holds the second unit id byte;
    register 0x1e has bit 4 set, and bit 3 with [disable_default], its
    other bits as they were; every other register and the four mirror
    attributes are what they were; the [address] attribute is the new
    address. *)
Theorem change_i2c_address_registers (new : Z) (d : bool) (w : World) :
  0 <= new <= 127 -> enough (if d then 7 else 5) (bus w) ->
  exists w',
    change_i2c_address new d w = Ok tt w' /\
    regs (bus w') 0x18 = regs (bus w) 0x16 /\
    regs (bus w') 0x19 = regs (bus w) 0x17 /\
    byte_val (regs (bus w') 0x1a) = Z.shiftl new 1 /\
    regs (bus w') 0x1b = regs (bus w) 0x17 /\
    byte_val (regs (bus w') 0x1e)
      = Z.lor (byte_val (regs (bus w) 0x1e)) (if d then 0x18 else 0x10) /\
    (forall m, m <> 0x18 -> m <> 0x19 -> m <> 0x1a -> m <> 0x1b ->
               m <> 0x1e -> regs (bus w') m = regs (bus w) m) /\
    address (self w') = new /\
    sig_count_max (self w') = sig_count_max (self w) /\
    acq_config_reg (self w') = acq_config_reg (self w) /\
    ref_count_max (self w') = ref_count_max (self w) /\
    threshold_bypass (self w') = threshold_bypass (self w).
Proof.
  intros Hnew Hb. expose w. unfold enough in Hb. cbn in Hb.
  pose proof (shiftl1_byte new Hnew) as Hsh.
  destruct d.
  - assert (Hk : b = None \/
                 exists k, b = Some (S (S (S (S (S (S (S k)))))))).
    { destruct b as [k|]; [right|left; reflexivity].
      do 7 (destruct k as [|k]; [lia|]). exists k. reflexivity. }
    destruct Hk as [->|[k ->]];
      eexists; (split; [run; reflexivity|]); run;
      (split; [lookup|]); (split; [lookup|]);
      (split; [lookup; apply byte_val_low, Hsh|]);
      (split; [lookup|]);
      (split; [lookup; change (Z.shiftl 1 4) with 16;
               change (Z.shiftl 1 3) with 8;
               rewrite (byte_val_lor _ 8), (byte_val_lor _ 16) by lia;
               rewrite <- Z.lor_assoc; reflexivity|]);
      (split; [|repeat split]);
      intros m H18 H19 H1a H1b H1e;
      rewrite !store_other by (cbn [List.length]; lia); reflexivity.
  - assert (Hk : b = None \/ exists k, b = Some (S (S (S (S (S k)))))).
    { destruct b as [k|]; [right|left; reflexivity].
      do 5 (destruct k as [|k]; [lia|]). exists k. reflexivity. }
    destruct Hk as [->|[k ->]];
      eexists; (split; [run; reflexivity|]); run;
      (split; [lookup|]); (split; [lookup|]);
      (split; [lookup; apply byte_val_low, Hsh|]);
      (split; [lookup|]);
      (split; [lookup; change (Z.shiftl 1 4) with 16;
               apply byte_val_lor; lia|]);
      (split; [|repeat split]);
      intros m H18 H19 H1a H1b H1e;
      rewrite !store_other by (cbn [List.length]; lia); reflexivity.
Qed.

Lemma change_i2c_address_registers_witness :
  let w := fresh ranging_device in
  0 <= 0x70 <= 127 /\ enough 7 (bus w) /\
  exists w',
    change_i2c_address 0x70 true w = Ok tt w' /\
    byte_val (regs (bus w') 0x1a) = 0xE0 /\
    byte_val (regs (bus w') 0x1e) = 0x18.
Proof.
  intros w.
  assert (H1 : 0 <= 0x70 <= 127) by lia.
  assert (H2 : enough 7 (bus w)) by exact I.
  split; [exact H1|]. split; [exact H2|].
  destruct (change_i2c_address_registers 0x70 true w H1 H2)
    as (w' & Hrun & _ & _ & H1a & _ & H1e & _).
  exists w'. split; [exact Hrun|]. split; [exact H1a | exact H1e].
Defined.

(** ** [reset_reference_filter]: what reaches the device *)


(** X14: on a bus that never fails, [reset_reference_filter] returns after
    these transactions, all at the address of the driver: the read of
    register 0x04; the write of that byte with bit 4 set, to register
    0x12; the read of register 0x12, which returns the byte just written;
    the write of 0xff to 0x12; the transactions of one [range]; the write
    to 0x12 of the byte read from it; and the write to 0x04 of the byte
    first read from it.  Register 0x04 is written once, with the byte it
    already held: the bit that disables the reference filter never
    reaches the acquisition configuration register. *)
Theorem reset_reference_filter_sequence (w : World) :
  budget (bus w) = None ->
  exists acq dis p1 p2 d0 d1 w',
    reset_reference_filter w = Ok tt w' /\
    acq = regs (bus w) 0x04 /\
    byte_val dis = Z.lor (byte_val acq) 0x10 /\
    poll_until_idle (address (self w)) p1 /\
    poll_until_idle (address (self w)) p2 /\
    issued w w'
      ([ReadFrom (address (self w)) 0x04 1 (Some [acq]);
        WriteTo (address (self w)) 0x12 [dis] true;
        ReadFrom (address (self w)) 0x12 1 (Some [dis]);
        WriteTo (address (self w)) 0x12 [Init.Byte.xff] true] ++
       (p1 ++ [WriteTo (address (self w)) 0x00 [Init.Byte.x01] true] ++
        p2 ++ [ReadFrom (address (self w)) 0x0f 2 (Some [d0; d1])]) ++
       [WriteTo (address (self w)) 0x12 [dis] true;
        WriteTo (address (self w)) 0x04 [acq] true]).
Proof.
  intros Hb.
  destruct (read_reliable 0x04 1 w) as (w1 & E1 & S1); [lia | exact Hb |].
  set (acq := regs (bus w) 0x04) in *.
  set (dis := byte_low (Z.lor (byte_val acq) 0x10)).
  destruct (write_reliable 0x12 [dis] w1) as (w2 & E2 & S2); [apply S1|].
  destruct (read_reliable 0x12 1 w2) as (w3 & E3 & S3); [lia | apply S2 |].
  destruct (write_reliable 0x12 [byte_low 0xff] w3) as (w4 & E4 & S4);
    [apply S3|].
  destruct (range_reliable w4) as (p1 & p2 & w5 & E5 & P1 & P2 & S5);
    [apply S4|].
  destruct (write_reliable 0x12 [dis] w5) as (w6 & E6 & S6); [apply S5|].
  destruct (write_reliable 0x04 [acq] w6) as (w7 & E7 & S7); [apply S6|].
  assert (R2 : regs (bus w2) 0x12 = dis).
  { destruct S2 as (_ & _ & -> & _). reflexivity. }
  assert (A1 : address (self w1) = address (self w)) by apply S1.
  assert (A2 : address (self w2) = address (self w)).
  { rewrite <- A1. apply S2. }
  assert (A3 : address (self w3) = address (self w)).
  { rewrite <- A2. apply S3. }
  assert (A4 : address (self w4) = address (self w)).
  { rewrite <- A3. apply S4. }
  assert (A5 : address (self w5) = address (self w)).
  { rewrite <- A4. apply S5. }
  assert (A6 : address (self w6) = address (self w)).
  { rewrite <- A5. apply S6. }
  exists acq, dis, p1, p2, (regs (bus w4) 0x0f), (regs (bus w4) 0x10), w7.
  split.
  { unfold reset_reference_filter, bind.
    rewrite E1. cbn [fetch item nth_error ret setitem0].
    fold acq. fold dis.
    rewrite E2, E3. cbn [fetch item nth_error ret setitem0].
    rewrite R2.
    rewrite E4, E5. rewrite !byte_low_val. rewrite E6, E7. reflexivity. }
  split; [reflexivity|].
  split; [apply byte_val_lor; lia|].
  rewrite A4 in P1, P2, S5. rewrite A1 in S2. rewrite A2 in S3.
  rewrite A3 in S4. rewrite A5 in S6. rewrite A6 in S7.
  split; [exact P1|]. split; [exact P2|].
  cbn [fetch] in S1, S3. fold acq in S1. rewrite R2 in S3.
  apply (step_trans _ _ _ _ _ _ _ S1
           (step_trans _ _ _ _ _ _ _ S2
              (step_trans _ _ _ _ _ _ _ S3
                 (step_trans _ _ _ _ _ _ _ S4
                    (step_trans _ _ _ _ _ _ _ S5
                       (step_trans _ _ _ _ _ _ _ S6 S7)))))).
Qed.

Lemma reset_reference_filter_sequence_witness :
  budget (bus (fresh ranging_device)) = None /\
  exists w' p,
    reset_reference_filter (fresh ranging_device) = Ok tt w' /\
    issued (fresh ranging_device) w' p /\
    nth_error p 1 = Some (WriteTo 0x62 0x12 [Init.Byte.x18] true).
Proof.
  assert (H : budget (bus (fresh ranging_device)) = None) by reflexivity.
  split; [exact H|].
  destruct (reset_reference_filter_sequence (fresh ranging_device) H)
    as (acq & dis & p1 & p2 & d0 & d1 & w' & Hrun & Hacq & Hdis & _ & _
        & Hlog).
  exists w'. eexists. split; [exact Hrun|]. split; [exact Hlog|].
  cbn [nth_error app]. do 3 f_equal.
  rewrite <- (byte_low_val dis), Hdis, Hacq. reflexivity.
Defined.

(** ** [reset_reference_filter]: a failure after the overrides *)

Lemma only_registers_ret {A : Type} (allowed : Z -> Prop) (a : A) :
  only_registers allowed (ret a).
Proof.
  intros w. exists [], w. unfold issued. rewrite app_nil_r.
  repeat split. constructor.
Qed.

Lemma only_registers_bind {A B : Type} (allowed : Z -> Prop) (c : M A)
    (k : A -> M B) :
  only_registers allowed c -> (forall a, only_registers allowed (k a)) ->
  only_registers allowed (bind c k).
Proof.
  intros Hc Hk w. unfold bind.
  destruct (Hc w) as (p & w1 & F1 & L1 & A1).
  destruct (c w) as [a w1'|e w1'|]; cbn in F1; [| |discriminate].
  - injection F1 as ->.
    destruct (Hk a w1) as (q & w2 & F2 & L2 & A2).
    exists (p ++ q), w2. split; [exact F2|].
    split; [|apply Forall_app; auto].
    unfold issued in *. rewrite L2, L1, app_assoc. reflexivity.
  - injection F1 as ->. exists p, w1. auto.
Qed.

Lemma only_registers_write (allowed : Z -> Prop) (register : Z)
    (value : list byte) :
  allowed register -> only_registers allowed (write register value).
Proof.
  intros Hr w.
  unfold write, bind, get_self, i2c_writeto_mem, writeto_mem, sleep_us.
  destruct (spend (budget (bus w))); cbn.
  - eexists. eexists. split; [reflexivity|].
    split; [unfold issued, bus; cbn; reflexivity|].
    constructor; [exact Hr | constructor].
  - eexists. eexists. split; [reflexivity|].
    split; [unfold issued, bus; cbn; reflexivity|].
    constructor; [exact Hr | constructor].
Qed.

Lemma only_registers_read (allowed : Z -> Prop) (register : Z)
    (nbytes : nat) :
  allowed register -> only_registers allowed (read register nbytes).
Proof.
  intros Hr w. rewrite read_run. unfold after_read, readfrom_mem.
  destruct (answer (regs (bus w)) (status (bus w)) register nbytes)
    as [val script'].
  destruct (spend (budget (bus w))); cbn.
  - eexists. eexists. split; [reflexivity|].
    split; [unfold issued, bus; cbn; reflexivity|].
    constructor; [exact Hr | constructor].
  - eexists. eexists. split; [reflexivity|].
    split; [unfold issued, bus; cbn; reflexivity|].
    constructor; [exact Hr | constructor].
Qed.

Lemma only_registers_item (allowed : Z -> Prop) (b : list byte) (i : nat) :
  only_registers allowed (item b i).
Proof.
  unfold item. destruct (nth_error b i); [apply only_registers_ret|].
  intros w. exists [], w. unfold issued. rewrite app_nil_r.
  repeat split. constructor.
Qed.

Lemma only_registers_wait_for_busy (allowed : Z -> Prop) :
  allowed 0x01 -> only_registers allowed wait_for_busy.
Proof.
  intros H1 w.
  destruct (wait_loop_run (Z.to_nat 10000) 0 w)
    as (pre & t & w' & Hl & Hpre & Ht & _ & _ & _ & _ & _ & _ & _ & Ho);
    [lia | lia |].
  fold wait_for_busy in Ho.
  exists (pre ++ [t]), w'.
  split.
  { destruct Ho as [(_ & E & _)|[(_ & _ & E & _)|(_ & E & _)]];
      rewrite E; reflexivity. }
  split; [exact Hl|].
  assert (Hm : forall x, status_read (address (self w)) x = true ->
                         allowed (memaddr_of x)).
  { intros x Hx. destruct x as [|a m n res]; cbn in Hx; [discriminate|].
    cbn. destruct (Z.eqb_spec m 1) as [->|]; [exact H1|].
    rewrite andb_false_r in Hx. discriminate. }
  apply Forall_app. split.
  - eapply Forall_impl; [|exact Hpre].
    intros x Hx. eapply Hm, busy_flag_status_read, Hx.
  - constructor; [apply Hm, Ht | constructor].
Qed.

Lemma only_registers_range (allowed : Z -> Prop) :
  allowed 0x00 -> allowed 0x01 -> allowed 0x0f ->
  only_registers allowed range.
Proof.
  intros H0 H1 Hf. unfold range, take_range, read_distance, bytes1.
  cbn [byte_of Z.leb Z.ltb Z.compare Pos.compare Pos.compare_cont andb].
  apply only_registers_bind; [apply only_registers_wait_for_busy, H1|].
  intros _. apply only_registers_bind.
  { apply only_registers_bind; [apply only_registers_ret|].
    intros b. apply only_registers_write, H0. }
  intros _. apply only_registers_bind;
    [apply only_registers_wait_for_busy, H1|].
  intros _. apply only_registers_bind; [apply only_registers_read, Hf|].
  intros d. apply only_registers_bind; [apply only_registers_item|].
  intros d0. apply only_registers_bind; [apply only_registers_item|].
  intros d1. apply only_registers_ret.
Qed.

(** A write goes through or fails; a failed one changes no register. *)
Lemma write_cases (register : Z) (value : list byte) (w : World) :
  (exists w',
     write register value w = Ok tt w' /\
     issued w w' [WriteTo (address (self w)) register value true] /\
     regs (bus w') = store (regs (bus w)) register value /\
     address (self w') = address (self w)) \/
  (exists w',
     write register value w = Raise OSError w' /\
     issued w w' [WriteTo (address (self w)) register value false] /\
     regs (bus w') = regs (bus w)).
Proof.
  unfold write, bind, get_self, i2c_writeto_mem, writeto_mem, sleep_us.
  destruct (spend (budget (bus w))); cbn.
  - left. eexists. split; [reflexivity|]. repeat split.
  - right. eexists. split; [reflexivity|]. repeat split.
Qed.

(** The call once the four transactions of the overrides have succeeded:
    the world they leave, and what remains to run. *)
Lemma reset_reference_filter_overridden (r : Z -> byte)
    (script : list byte) (k : nat) (l : list txn)
    (a scm acr rcm tb bc : Z) (out : list string) (slept : Z) :
  let dis := byte_low (Z.lor (byte_val (r 0x04)) 0x10) in
  let w4 :=
    mkWorld
      (mkV3HP
         (mkI2C (store (store r 0x12 [dis]) 0x12 [Init.Byte.xff])
            script (Some k)
            ((((l ++ [ReadFrom a 0x04 1 (Some [r 0x04])]) ++
               [WriteTo a 0x12 [dis] true]) ++
              [ReadFrom a 0x12 1 (Some [dis])]) ++
             [WriteTo a 0x12 [Init.Byte.xff] true]))
         a scm acr rcm tb bc) out (slept + 10 + 10) in
  reset_reference_filter
    (mkWorld
       (mkV3HP (mkI2C r script (Some (S (S (S (S k))))) l)
               a scm acr rcm tb bc) out slept)
  = match range w4 with
    | Ok _ w5 => (write 0x12 [dis] ;; write 0x04 [r 0x04]) w5
    | Raise e w5 => Raise e w5
    | OutOfFuel => OutOfFuel
    end.
Proof.
  intros dis w4. subst dis w4. unfold reset_reference_filter. run.
  rewrite !byte_low_val. reflexivity.
Qed.

(** A poll on a bus that fails at once. *)
Lemma wait_for_busy_fails (w : World) :
  spend (budget (bus w)) = None ->
  wait_for_busy w = Raise OSError (after_read w 0x01 1).
Proof.
  intros H. unfold wait_for_busy.
  change (Z.to_nat 10000) with (S (Z.to_nat 9999)).
  cbn [wait_loop]. unfold bind. rewrite get_busy_flag_run, H. reflexivity.
Qed.

Lemma issued_trans (w1 w2 w3 : World) (p q : list txn) :
  issued w1 w2 p -> issued w2 w3 q -> issued w1 w3 (p ++ q).
Proof.
  unfold issued. intros H1 H2. rewrite H2, H1, app_assoc. reflexivity.
Qed.

(** X15: [reset_reference_filter] has no cleanup.  When the bus fails at
    the fifth transaction, the first status read of [range], the call
    raises [OSError] right there, with register 0x12 left at 0xff.  More
    generally, once the four transactions of the overrides have
    succeeded, a call that raises raises [OSError] with the failed
    transaction as the last one issued and register 0x04 as it was, and
    register 0x12 is left at 0xff, unless the failed transaction is the
    final write to 0x04: then 0x12 holds the byte written back to it, the
    former 0x04 with bit 4 set. *)
Theorem reset_reference_filter_no_cleanup (w : World) :
  let acq := regs (bus w) 0x04 in
  let dis := byte_low (Z.lor (byte_val acq) 0x10) in
  let a := address (self w) in
  (budget (bus w) = Some 4%nat ->
   exists w',
     reset_reference_filter w = Raise OSError w' /\
     issued w w'
       [ReadFrom a 0x04 1 (Some [acq]); WriteTo a 0x12 [dis] true;
        ReadFrom a 0x12 1 (Some [dis]);
        WriteTo a 0x12 [Init.Byte.xff] true; ReadFrom a 0x01 1 None] /\
     regs (bus w') 0x12 = Init.Byte.xff /\ regs (bus w') 0x04 = acq) /\
  (enough 4 (bus w) ->
   forall e w',
     reset_reference_filter w = Raise e w' ->
     e = OSError /\ regs (bus w') 0x04 = acq /\
     exists p t,
       issued w w' (p ++ [t]) /\ failed t = true /\
       (memaddr_of t <> 0x04 -> regs (bus w') 0x12 = Init.Byte.xff) /\
       (memaddr_of t = 0x04 -> regs (bus w') 0x12 = dis)).
Proof.
  intros acq dis a. subst acq dis a. expose w.
  unfold bus at 1 2 3 4 5 6 7 8. cbn [self i2c regs budget address].
  split.
  - (* the fifth transaction fails *)
    intros ->. rewrite reset_reference_filter_overridden.
    unfold range, bind. rewrite wait_for_busy_fails by reflexivity.
    eexists. split; [reflexivity|].
    split; [unfold issued; run; rewrite <- !app_assoc; reflexivity|].
    split; reflexivity.
  - intros Hb e w' E. unfold enough in Hb. cbn in Hb.
    destruct b as [k|].
    2:{ (* a bus that never fails: the call returns *)
        pose proof (runs_reset_reference_filter (fun _ => True) I I I
                      (mkWorld (mkV3HP (mkI2C r script None l)
                                       a scm acr rcm tb bc) out slept))
          as H.
        rewrite E in H. destruct H as (_ & H & _). exfalso. apply H.
        reflexivity. }
    do 4 (destruct k as [|k]; [lia|]).
    rewrite reset_reference_filter_overridden in E.
    set (dis := byte_low (Z.lor (byte_val (r 4)) 16)) in *.
    match type of E with
    | match range ?W with _ => _ end = _ => set (w4 := W) in *
    end.
    assert (L4 : issued
                   (mkWorld (mkV3HP (mkI2C r script
                                       (Some (S (S (S (S k))))) l)
                                    a scm acr rcm tb bc) out slept)
                   w4
                   [ReadFrom a 4 1 (Some [r 4]); WriteTo a 18 [dis] true;
                    ReadFrom a 18 1 (Some [dis]);
                    WriteTo a 18 [Init.Byte.xff] true]).
    { unfold issued, w4, bus. cbn [self i2c log].
      rewrite <- !app_assoc. reflexivity. }
    assert (R4 : regs (bus w4) 18 = Init.Byte.xff /\ regs (bus w4) 4 = r 4)
      by (split; reflexivity).
    destruct R4 as [R418 R44].
    pose proof (runs_range (fun m => m = 0) eq_refl w4) as Hrange.
    destruct (range w4) as [d w5|e5 w5|] eqn:Er; [| |discriminate].
    + (* [range] returns: a restoring write fails *)
      destruct Hrange as (_ & p5 & F5 & _).
      destruct F5 as (L5 & _ & _ & _ & R5 & _).
      assert (R518 : regs (bus w5) 18 = Init.Byte.xff)
        by (rewrite R5 by lia; exact R418).
      assert (R54 : regs (bus w5) 4 = r 4)
        by (rewrite R5 by lia; exact R44).
      unfold bind in E.
      destruct (write_cases 18 [dis] w5)
        as [(w6 & E6 & L6 & R6 & A6)|(w6 & E6 & L6 & R6)];
        rewrite E6 in E.
      * destruct (write_cases 4 [r 4] w6)
          as [(w7 & E7 & _)|(w7 & E7 & L7 & R7)];
          rewrite E7 in E; [discriminate|].
        injection E as <- <-.
        split; [reflexivity|]. split.
        { rewrite R7, R6. rewrite store_other by (cbn; lia). exact R54. }
        eexists. eexists. split.
        { exact (issued_trans _ _ _ _ _
                  (issued_trans _ _ _ _ _
                     (issued_trans _ _ _ _ _ L4 L5) L6) L7). }
        split; [reflexivity|]. split.
        { intros H. exfalso. apply H. reflexivity. }
        intros _. rewrite R7, R6. reflexivity.
      * injection E as <- <-.
        split; [reflexivity|]. split; [rewrite R6; exact R54|].
        eexists. eexists. split.
        { exact (issued_trans _ _ _ _ _ (issued_trans _ _ _ _ _ L4 L5) L6). }
        split; [reflexivity|]. split.
        { intros _. rewrite R6. exact R518. }
        intros H. discriminate H.
    + (* [range] raises *)
      injection E as <- <-.
      destruct Hrange as (-> & _ & p' & t & F5 & _ & Ht).
      destruct F5 as (L5 & _ & _ & _ & R5 & _).
      assert (Hreg : only_registers (fun m => m <> 4) range)
        by (apply only_registers_range; lia).
      destruct (Hreg w4) as (p & w5' & F & Lp & Hall).
      rewrite Er in F. injection F as <-.
      assert (Hp : p = p' ++ [t]).
      { unfold issued in L5, Lp. rewrite L5 in Lp.
        apply app_inv_head in Lp. symmetry. exact Lp. }
      subst p. apply Forall_app in Hall. destruct Hall as [_ Hall].
      inversion Hall as [|x q Hx _]; subst.
      split; [reflexivity|].
      split; [rewrite R5 by lia; exact R44|].
      exists ([ReadFrom a 4 1 (Some [r 4]); WriteTo a 18 [dis] true;
               ReadFrom a 18 1 (Some [dis]);
               WriteTo a 18 [Init.Byte.xff] true] ++ p'), t.
      split.
      { rewrite <- app_assoc. exact (issued_trans _ _ _ _ _ L4 L5). }
      split; [exact Ht|]. split.
      { intros _. rewrite R5 by lia. exact R418. }
      intros H. contradiction.
Qed.

(** On the device of [ranging_device], with a bus that fails at its fifth
    transaction. *)
Lemma reset_reference_filter_no_cleanup_witness :
  let w := fresh (mkI2C (regs ranging_device) [] (Some 4%nat) []) in
  budget (bus w) = Some 4%nat /\
  exists w',
    reset_reference_filter w = Raise OSError w' /\
    regs (bus w') 0x12 = Init.Byte.xff /\
    regs (bus w') 0x04 = Init.Byte.x08.
Proof.
  intros w.
  assert (H : budget (bus w) = Some 4%nat) by reflexivity.
  split; [exact H|].
  destruct (proj1 (reset_reference_filter_no_cleanup w) H)
    as (w' & Hrun & _ & H12 & H04).
  exists w'. split; [exact Hrun|]. split; [exact H12 | exact H04].
Defined.

(** X16: on a bus that never fails, for every register state,
    [reset_reference_filter] returns and leaves the device as follows:
    register 0x00 holds the trigger byte 0x01, register 0x12 holds the
    former byte of register 0x04 with bit 4 set, and every other register,
    0x04 among them, holds what it held before; no attribute of the driver
    is changed. *)
Theorem reset_reference_filter_registers (w : World) :
  budget (bus w) = None ->
  exists w',
    reset_reference_filter w = Ok tt w' /\
    (forall m,
       regs (bus w') m =
       if m =? 0x00 then Init.Byte.x01
       else if m =? 0x12
            then byte_low (Z.lor (byte_val (regs (bus w) 0x04)) 0x10)
            else regs (bus w) m) /\
    same_driver w w'.
Proof.
  intros Hb.
  destruct (read_reliable 0x04 1 w) as (w1 & E1 & S1); [lia | exact Hb |].
  set (acq := regs (bus w) 0x04) in *.
  set (dis := byte_low (Z.lor (byte_val acq) 0x10)).
  destruct (write_reliable 0x12 [dis] w1) as (w2 & E2 & S2); [apply S1|].
  destruct (read_reliable 0x12 1 w2) as (w3 & E3 & S3); [lia | apply S2 |].
  destruct (write_reliable 0x12 [byte_low 0xff] w3) as (w4 & E4 & S4);
    [apply S3|].
  destruct (range_reliable w4) as (p1 & p2 & w5 & E5 & _ & _ & S5);
    [apply S4|].
  destruct (write_reliable 0x12 [dis] w5) as (w6 & E6 & S6); [apply S5|].
  destruct (write_reliable 0x04 [acq] w6) as (w7 & E7 & S7); [apply S6|].
  assert (R2 : regs (bus w2) 0x12 = dis).
  { destruct S2 as (_ & _ & -> & _). reflexivity. }
  exists w7. split.
  { unfold reset_reference_filter, bind.
    rewrite E1. cbn [fetch item nth_error ret setitem0].
    fold acq. fold dis.
    rewrite E2, E3. cbn [fetch item nth_error ret setitem0].
    rewrite R2.
    rewrite E4, E5. rewrite !byte_low_val. rewrite E6, E7. reflexivity. }
  split.
  - intros m.
    destruct S7 as (_ & _ & -> & _). destruct S6 as (_ & _ & -> & _).
    destruct S5 as (_ & _ & -> & _). destruct S4 as (_ & _ & -> & _).
    destruct S3 as (_ & _ & -> & _). destruct S2 as (_ & _ & -> & _).
    destruct S1 as (_ & _ & -> & _). cbn [store].
    destruct (Z.eqb_spec m 4) as [->|_]; [reflexivity|].
    destruct (Z.eqb_spec m 18) as [->|_]; [reflexivity|].
    destruct (Z.eqb_spec m 0) as [->|_]; reflexivity.
  - apply (same_driver_trans _ _ _ (proj1 (proj2 S1))).
    apply (same_driver_trans _ _ _ (proj1 (proj2 S2))).
    apply (same_driver_trans _ _ _ (proj1 (proj2 S3))).
    apply (same_driver_trans _ _ _ (proj1 (proj2 S4))).
    apply (same_driver_trans _ _ _ (proj1 (proj2 S5))).
    apply (same_driver_trans _ _ _ (proj1 (proj2 S6))).
    exact (proj1 (proj2 S7)).
Qed.

Lemma reset_reference_filter_registers_witness :
  budget (bus (fresh ranging_device)) = None /\
  exists w',
    reset_reference_filter (fresh ranging_device) = Ok tt w' /\
    regs (bus w') 0x12 = Init.Byte.x18 /\
    regs (bus w') 0x1c = regs (bus (fresh ranging_device)) 0x1c.
Proof.
  assert (H : budget (bus (fresh ranging_device)) = None) by reflexivity.
  split; [exact H|].
  destruct (reset_reference_filter_registers (fresh ranging_device) H)
    as (w' & Hrun & Hregs & _).
  exists w'. split; [exact Hrun|].
  split; [rewrite Hregs; reflexivity | rewrite Hregs; reflexivity].
Defined.
